(** * Gen-AI-Forge: the Flask backend [app.py]

    A shallow embedding of the three JSON routes of [app.py]
    ([search_interiors], [assistant_chat], [analyze_room]) and of the four
    static page routes, together with the library calls they rely on
    ([str.strip], [werkzeug.utils.secure_filename], [os.path.join],
    [FileStorage.save], [jsonify], [print]).

    Python values are modelled as follows.
    - [str] is a list of Unicode code points ([N]); [lit] embeds an ASCII
      literal.
    - an exception is a record carrying its class name and [str(e)];
      only instances of [Exception] are modelled (what [except Exception]
      catches), interpreter signals such as [KeyboardInterrupt] are not.
    - a view function is a computation in a state-and-exception monad
      over a [World]: the files on disk, the text printed on stdout and
      the traces of the calls made to the hosted model and to HTTP
      services.
    - everything the process does not define itself (the hosted model,
      the image decoder, the template engine, the Unicode tables, the
      installation directory) is a field of the class [Platform].
    - paths follow the POSIX conventions ([os.sep] is [/], there is no
      [os.altsep]) and a file name holds at most [os.NAME_MAX] bytes; the
      upload folder exists, as [os.makedirs] at start-up ensures; whether
      the operating system otherwise accepts a write (free space,
      permissions) is a field of [Platform] too. *)

From stdpp Require Import base option list gmap strings.
From Stdlib Require Import NArith Strings.Ascii Strings.Byte.

Local Open Scope N_scope.

(** ** Python strings *)

Abbreviation char := N (only parsing).
Abbreviation str := (list N) (only parsing).

Definition lit (s : string) : str :=
  (fun a => N_of_ascii a) <$> String.list_ascii_of_string s.

(** [str.isspace] on one code point (the table of CPython's
    [_PyUnicode_IsWhitespace]). *)
Definition isspace (c : char) : bool :=
  ((9 <=? c) && (c <=? 13)) || ((28 <=? c) && (c <=? 32))
  || (c =? 133) || (c =? 160) || (c =? 5760)
  || ((8192 <=? c) && (c <=? 8202))
  || (c =? 8232) || (c =? 8233) || (c =? 8239) || (c =? 8287)
  || (c =? 12288).

Fixpoint lstrip (p : char -> bool) (s : str) : str :=
  match s with
  | [] => []
  | c :: s' => if p c then lstrip p s' else s
  end.

Definition rstrip (p : char -> bool) (s : str) : str :=
  reverse (lstrip p (reverse s)).

(** [s.strip()] and [s.strip(chars)]. *)
Definition strip_with (p : char -> bool) (s : str) : str :=
  rstrip p (lstrip p s).

Definition strip (s : str) : str := strip_with isspace s.

Definition char_in (chars : str) (c : char) : bool :=
  bool_decide (c ∈ chars).

(** [s.split()]: the maximal runs of non-whitespace characters. *)
Fixpoint split_ws_from (cur : str) (s : str) : list str :=
  match s with
  | [] => match cur with [] => [] | _ => [reverse cur] end
  | c :: s' =>
      if isspace c
      then match cur with
           | [] => split_ws_from [] s'
           | _ => reverse cur :: split_ws_from [] s'
           end
      else split_ws_from (c :: cur) s'
  end.

Definition split_ws (s : str) : list str := split_ws_from [] s.

(** [sep.join(parts)]. *)
Fixpoint join (sep : str) (parts : list str) : str :=
  match parts with
  | [] => []
  | [p] => p
  | p :: ps => p ++ sep ++ join sep ps
  end.

(** [s.replace(old, new)] for one-character [old] and [new]. *)
Definition replace_char (old new : char) (s : str) : str :=
  (fun c => if c =? old then new else c) <$> s.

(** [s.split(".")[0]]. *)
Fixpoint before_char (d : char) (s : str) : str :=
  match s with
  | [] => []
  | c :: s' => if c =? d then [] else c :: before_char d s'
  end.

(** [s.upper()] on ASCII text. *)
Definition upper (s : str) : str :=
  (fun c => if (97 <=? c) && (c <=? 122) then c - 32 else c) <$> s.

(** A Python string used as a condition: true when non-empty. *)
Definition truthy (s : str) : bool :=
  match s with [] => false | _ => true end.

Definition endswith_char (s : str) (c : char) : bool :=
  match last s with Some d => d =? c | None => false end.

Definition startswith_char (s : str) (c : char) : bool :=
  match s with d :: _ => d =? c | [] => false end.

(** [len(s.encode("utf-8"))]: the bytes a file system counts. *)
Definition utf8_length (s : str) : N :=
  foldr (fun c n =>
           (if c <? 128 then 1 else if c <? 2048 then 2
            else if c <? 65536 then 3 else 4) + n) 0 s.

(** ** The operating system: POSIX path conventions *)

Module os.

Definition name : str := lit "posix".
Definition sep : char := 47.
Definition altsep : option char := None.

(** [posixpath.join(a, b)]. *)
Definition path_join (a b : str) : str :=
  if startswith_char b sep then b
  else if negb (truthy a) || endswith_char a sep then a ++ b
  else a ++ [sep] ++ b.

(** [posixpath.basename(p)]: what follows the last separator. *)
Definition basename (p : str) : str :=
  reverse (before_char sep (reverse p)).

(** The longest file name, in bytes, that the file system accepts
    ([os.pathconf(dir, "PC_NAME_MAX")]). *)
Definition NAME_MAX : N := 255.

End os.

(** ** [werkzeug.utils.secure_filename] *)

Module werkzeug.

(** The character class [A-Za-z0-9_.-]; [_filename_ascii_strip_re]
    deletes every character outside it. *)
Definition filename_char (c : char) : bool :=
  ((65 <=? c) && (c <=? 90)) || ((97 <=? c) && (c <=? 122))
  || ((48 <=? c) && (c <=? 57))
  || (c =? 95) || (c =? 46) || (c =? 45).

Definition _windows_device_files : list str :=
  [lit "CON"; lit "PRN"; lit "AUX"; lit "NUL"]
  ++ ((fun i => lit "COM" ++ [48 + i]) <$> [0;1;2;3;4;5;6;7;8;9])
  ++ ((fun i => lit "LPT" ++ [48 + i]) <$> [0;1;2;3;4;5;6;7;8;9]).

Definition replace_sep (o : option char) (s : str) : str :=
  match o with
  | Some c => replace_char c 32 s
  | None => s
  end.

Section secure.
(** [unicodedata.normalize("NFKD", _)], a table of the Unicode
    database. *)
Variable nfkd : str -> str.

Definition secure_filename (filename : str) : str :=
  let filename := nfkd filename in
  (* .encode("ascii", "ignore").decode("ascii") *)
  let filename := filter (fun c => c < 128) filename in
  let filename := replace_sep (Some os.sep) filename in
  let filename := replace_sep os.altsep filename in
  let filename :=
    strip_with (char_in (lit "._"))
      (filter (fun c => Is_true (filename_char c))
         (join (lit "_") (split_ws filename))) in
  if bool_decide (os.name = lit "nt") && truthy filename
     && bool_decide (upper (before_char 46 filename)
                       ∈ _windows_device_files)
  then lit "_" ++ filename
  else filename.
End secure.

End werkzeug.

(** ** Python values that cross the HTTP boundary *)

#[local] Set Warnings "-register-all".

(** A decoded JSON document. [JObject] lists the items of the [dict] in
    insertion order; its keys are distinct. *)
Inductive JSON : Type :=
| JNull
| JBool (b : bool)
| JInt (n : Z)
| JFloat (literal : str)
| JString (s : str)
| JArray (items : list JSON)
| JObject (items : list (str * JSON)).

(** [d.get(key, default)] on the items of a [dict] or of a [MultiDict]
    (which answers with the first value of the key). *)
Fixpoint lookup_default {V : Type} (d : list (str * V)) (key : str)
    (default : V) : V :=
  match d with
  | [] => default
  | (k, v) :: d' =>
      if bool_decide (k = key) then v else lookup_default d' key default
  end.

(** [key in d]. *)
Definition contains {V : Type} (d : list (str * V)) (key : str) : bool :=
  bool_decide (key ∈ d.*1).

(** An instance of [Exception]: its class and the text [str(e)]. *)
Record Exn : Type := mkExn { exn_class : str; exn_str : str }.

Inductive Result (A : Type) : Type :=
| Ok (a : A)
| Raise (e : Exn).
Arguments Ok {A} a.
Arguments Raise {A} e.

Definition KeyError (key : str) : Exn :=
  mkExn (lit "KeyError") (lit "'" ++ key ++ lit "'").

(** [d[key]] on a [MultiDict]: the first value of the key. *)
Fixpoint getitem {V : Type} (d : list (str * V)) (key : str) : Result V :=
  match d with
  | [] => Raise (KeyError key)
  | (k, v) :: d' => if bool_decide (k = key) then Ok v else getitem d' key
  end.

Definition py_type_name (v : JSON) : str :=
  match v with
  | JNull => lit "NoneType"
  | JBool _ => lit "bool"
  | JInt _ => lit "int"
  | JFloat _ => lit "float"
  | JString _ => lit "str"
  | JArray _ => lit "list"
  | JObject _ => lit "dict"
  end.

Definition AttributeError (v : JSON) (attr : str) : Exn :=
  mkExn (lit "AttributeError")
    (lit "'" ++ py_type_name v ++ lit "' object has no attribute '"
       ++ attr ++ lit "'").

(** [v.get(key, default)]: defined on a [dict] only. *)
Definition py_get (v : JSON) (key : str) (default : JSON) : Result JSON :=
  match v with
  | JObject d => Ok (lookup_default d key default)
  | _ => Raise (AttributeError v (lit "get"))
  end.

(** ** Flask's request and response objects *)

(** [werkzeug.datastructures.FileStorage]: one uploaded part. *)
Record FileStorage : Type := mkFile {
  filename : str;
  stream : list byte
}.

(** The parts of [flask.request] that the views read. [json] is the
    outcome of evaluating [request.json], which raises when the body is
    not a JSON document. *)
Record Request : Type := mkRequest {
  args : list (str * str);
  json : Result JSON;
  files : list (str * FileStorage)
}.

Record Response : Type := mkResponse {
  status : N;
  mimetype : str;
  data : JSON
}.

(** What a view function hands back to Flask. *)
Inductive ViewResult : Type :=
| RetNone
| RetStr (s : str)
| RetResponse (r : Response).

(** [flask.jsonify(d)]. *)
Definition jsonify (d : JSON) : ViewResult :=
  RetResponse (mkResponse 200 (lit "application/json") d).

(** ** The hosted model and the rest of the environment *)

Inductive Part (I : Type) : Type :=
| PText (s : str)
| PImage (img : I).
Arguments PText {I} s.
Arguments PImage {I} img.

(** The argument of [model.generate_content]: a string or a list. *)
Inductive Contents (I : Type) : Type :=
| CStr (s : str)
| CList (parts : list (Part I)).
Arguments CStr {I} s.
Arguments CList {I} parts.

(** [GenerateContentResponse]: reading [.text] may itself raise. *)
Record GenerateContentResponse : Type := mkGenResponse {
  text : Result str
}.

(** A request to an HTTP service, as [requests] would send it. *)
Record HttpRequest : Type := mkHttpRequest {
  http_url : str;
  http_headers : list (str * str);
  http_params : list (str * JSON)
}.

(** How writing a file ends once its path is well formed: the bytes are
    written; or [open] raises and the disk is as before; or writing stops
    part of the way with an exception. *)
Inductive WriteOutcome : Type :=
| Written
| Refused (e : Exn)
| Interrupted (e : Exn) (partial : list byte).

Class Platform : Type := {
  (** [os.path.abspath(os.path.dirname(__file__))] *)
  BASE_DIR : str;
  (** what the operating system makes of writing these bytes at this
      path on this disk (free space, permissions, ...) *)
  write_outcome : gmap str (list byte) -> str -> list byte -> WriteOutcome;
  (** [unicodedata.normalize("NFKD", _)] *)
  nfkd : str -> str;
  (** [PIL.Image.Image] *)
  Image : Type;
  (** what [Image.open] makes of the bytes of a file *)
  Image_decode : list byte -> Result Image;
  (** [img.convert(mode)] *)
  Image_convert : Image -> str -> Result Image;
  (** [model.generate_content(contents)]; the first argument counts the
      calls made before this one *)
  generate_content : nat -> Contents Image -> Result GenerateContentResponse;
  (** [flask.render_template(name)] *)
  render_template : str -> Result str;
  (** [str(v)] for a number or a container *)
  py_str : JSON -> str
}.

(** The value interpolated by an f-string field [{v}]. *)
Definition format_value `{Platform} (v : JSON) : str :=
  match v with
  | JString s => s
  | JNull => lit "None"
  | JBool true => lit "True"
  | JBool false => lit "False"
  | _ => py_str v
  end.

(** ** The world a request runs in, and the monad of view functions *)

Section App.
Context `{Platform}.

Record World : Type := mkWorld {
  (** regular files by path *)
  fs : gmap str (list byte);
  (** everything printed so far *)
  stdout : str;
  (** arguments of the calls to [model.generate_content], oldest first *)
  model_calls : list (Contents Image);
  (** requests sent with the [requests] library, oldest first *)
  http_calls : list HttpRequest
}.

Definition M (A : Type) : Type := World -> Result A * World.

Definition ret {A} (a : A) : M A := fun w => (Ok a, w).

Definition bind {A B} (m : M A) (k : A -> M B) : M B :=
  fun w =>
    match m w with
    | (Ok a, w') => k a w'
    | (Raise e, w') => (Raise e, w')
    end.

(** [try: body / except Exception as e: handler e]. What [body] did to
    the world before it raised stays done. *)
Definition try_except {A} (body : M A) (handler : Exn -> M A) : M A :=
  fun w =>
    match body w with
    | (Ok a, w') => (Ok a, w')
    | (Raise e, w') => handler e w'
    end.

(** A value or exception computed without touching the world. *)
Definition lift {A} (r : Result A) : M A := fun w => (r, w).

End App.

Declare Scope py_scope.
Delimit Scope py_scope with py.
Notation "x <- m ;; k" := (bind m (fun x => k))
  (at level 100, m at next level, right associativity) : py_scope.
Notation "m ;;; k" := (bind m (fun _ => k))
  (at level 100, right associativity) : py_scope.

Section Views.
Context `{Platform}.
Local Open Scope py_scope.

(** [print(a, b, ...)]: the arguments separated by a space, then a newline. *)
Definition print (args : list str) : M unit :=
  fun w =>
    (Ok tt,
     mkWorld (fs w) (stdout w ++ join (lit " ") args ++ [10])
       (model_calls w) (http_calls w)).

Definition IsADirectoryError (path : str) : Exn :=
  mkExn (lit "IsADirectoryError")
    (lit "[Errno 21] Is a directory: '" ++ path ++ lit "'").

Definition FileNotFoundError (path : str) : Exn :=
  mkExn (lit "FileNotFoundError")
    (lit "[Errno 2] No such file or directory: '" ++ path ++ lit "'").

Definition FileNameTooLong (path : str) : Exn :=
  mkExn (lit "OSError")
    (lit "[Errno 36] File name too long: '" ++ path ++ lit "'").

(** [file.save(dst)]: [open(dst, "wb")] and copy the stream. [open]
    raises for a path that ends in the separator (it names a directory)
    and for a file name of more than [os.NAME_MAX] bytes; otherwise the
    operating system decides, and the file is created or truncated and
    written, in full or in part. *)
Definition save (file : FileStorage) (dst : str) : M unit :=
  fun w =>
    if endswith_char dst os.sep
    then (Raise (IsADirectoryError dst), w)
    else if os.NAME_MAX <? utf8_length (os.basename dst)
    then (Raise (FileNameTooLong dst), w)
    else match write_outcome (fs w) dst (stream file) with
         | Written =>
             (Ok tt,
              mkWorld (<[dst := stream file]> (fs w)) (stdout w)
                (model_calls w) (http_calls w))
         | Refused e => (Raise e, w)
         | Interrupted e partial =>
             (Raise e,
              mkWorld (<[dst := partial]> (fs w)) (stdout w)
                (model_calls w) (http_calls w))
         end.

(** [Image.open(path)]: read the file back and decode it. *)
Definition Image_open (path : str) : M Image :=
  fun w =>
    match fs w !! path with
    | Some bytes => (Image_decode bytes, w)
    | None => (Raise (FileNotFoundError path), w)
    end.

(** [model.generate_content(contents)]. *)
Definition model_generate_content (contents : Contents Image)
    : M GenerateContentResponse :=
  fun w =>
    (generate_content (length (model_calls w)) contents,
     mkWorld (fs w) (stdout w) (model_calls w ++ [contents])
       (http_calls w)).

(** *** Configuration (lines 16-33 of [app.py]) *)

Definition UPLOAD_FOLDER : str := os.path_join BASE_DIR (lit "uploads").

Definition ALLOWED_EXTENSIONS : gset str :=
  {[ lit "png"; lit "jpg"; lit "jpeg"; lit "webp" ]}.

Definition UNSPLASH_ACCESS_KEY : str :=
  lit "Eu3uyoGiQnIk0sT1qjmtF2AZ2iyMnYjhaCA0sHR_IFk".

Definition secure_filename : str -> str := werkzeug.secure_filename nfkd.

(** *** The static pages *)

Definition home (request : Request) : M ViewResult :=
  page <- lift (render_template (lit "index.html")) ;; ret (RetStr page).

Definition design_page (request : Request) : M ViewResult :=
  page <- lift (render_template (lit "design.html")) ;; ret (RetStr page).

Definition basic_designs (request : Request) : M ViewResult :=
  page <- lift (render_template (lit "basic_designs.html")) ;;
  ret (RetStr page).

Definition assistant_page (request : Request) : M ViewResult :=
  page <- lift (render_template (lit "gruha_assistant.html")) ;;
  ret (RetStr page).

(** *** [/search-interiors] *)

(** The body of [search_interiors]. Beside the value returned it
    yields what the local variables [url], [headers] and [params] hold
    when the function ends: [None] on the early return, before they are
    assigned. *)
Definition search_interiors_frame (request : Request)
    : M (option HttpRequest * ViewResult) :=
  let query := strip (lookup_default (args request) (lit "query") []) in
  if negb (truthy query)
  then ret (None, jsonify (JObject [(lit "images", JArray [])]))
  else
    let url := lit "https://api.unsplash.com/search/photos" in
    let headers :=
      [(lit "Authorization", lit "Client-ID " ++ UNSPLASH_ACCESS_KEY)] in
    let params :=
      [(lit "query", JString (query ++ lit " interior design"));
       (lit "per_page", JInt 12);
       (lit "orientation", JString (lit "landscape"))] in
    (* the function ends here: nothing is sent, [None] is returned *)
    ret (Some (mkHttpRequest url headers params), RetNone).

Definition search_interiors (request : Request) : M ViewResult :=
  frame <- search_interiors_frame request ;; ret frame.2.

(** *** [/assistant-chat] *)

Definition chat_prompt (user_msg : JSON) : str :=
  lit "You are Gruha, a helpful interior design assistant." ++ [10]
    ++ lit "User: " ++ format_value user_msg.

Definition assistant_chat (request : Request) : M ViewResult :=
  body <- lift (json request) ;;
  user_msg <- lift (py_get body (lit "message") (JString [])) ;;
  try_except
    (response <- model_generate_content (CStr (chat_prompt user_msg)) ;;
     reply <- lift (text response) ;;
     ret (jsonify (JObject [(lit "reply", JString reply)])))
    (fun e =>
       print [lit "Gemini chat error:"; exn_str e] ;;;
       ret (jsonify (JObject
         [(lit "reply", JString (lit "Assistant unavailable right now."))]))).

(** *** [/analyze-room] *)

Definition indent : str := lit "        ".

Definition analysis_prompt : str :=
  [10]
  ++ indent ++ lit "You are an expert interior designer." ++ [10]
  ++ [10]
  ++ indent ++ lit "Analyze this room and provide:" ++ [10]
  ++ indent ++ [8226] ++ lit " What you observe" ++ [10]
  ++ indent ++ [8226] ++ lit " Improvement suggestions" ++ [10]
  ++ indent ++ [8226] ++ lit " Furniture ideas" ++ [10]
  ++ indent ++ [8226] ++ lit " Estimated budget in INR" ++ [10]
  ++ indent.

(** The body of the [try] statement, from the decoded image on. *)
Definition analyze_image (opened : Image) : M ViewResult :=
  img <- lift (Image_convert opened (lit "RGB")) ;;
  response <-
    model_generate_content (CList [PText analysis_prompt; PImage img]) ;;
  reply <- lift (text response) ;;
  ret (jsonify (JObject [(lit "reply", JString reply)])).

Definition analysis_failed (e : Exn) : M ViewResult :=
  print [lit "Gemini error:"; exn_str e] ;;;
  ret (jsonify (JObject
    [(lit "reply", JString (lit "AI analysis failed: " ++ exn_str e))])).

Definition analyze_room (request : Request) : M ViewResult :=
  if negb (contains (files request) (lit "image"))
  then
    ret (jsonify (JObject [(lit "reply", JString (lit "No image received."))]))
  else
    file <- lift (getitem (files request) (lit "image")) ;;
    let filename := secure_filename (filename file) in
    let filepath := os.path_join UPLOAD_FOLDER filename in
    save file filepath ;;;
    try_except
      (opened <- Image_open filepath ;; analyze_image opened)
      analysis_failed.

(** *** The view functions by endpoint *)

Inductive Endpoint : Type :=
| ep_home | ep_design_page | ep_basic_designs | ep_assistant_page
| ep_search_interiors | ep_assistant_chat | ep_analyze_room.

Definition view_function (ep : Endpoint) : Request -> M ViewResult :=
  match ep with
  | ep_home => home
  | ep_design_page => design_page
  | ep_basic_designs => basic_designs
  | ep_assistant_page => assistant_page
  | ep_search_interiors => search_interiors
  | ep_assistant_chat => assistant_chat
  | ep_analyze_room => analyze_room
  end.

End Views.

(** ** Vocabulary of the statements *)

(** [remove_prefix pre s] is [Some t] exactly when [s = pre ++ t]. *)
Fixpoint remove_prefix (pre s : str) : option str :=
  match pre, s with
  | [], _ => Some s
  | _ :: _, [] => None
  | a :: pre', b :: s' => if a =? b then remove_prefix pre' s' else None
  end.

(** A path component that names an entry of its directory: not empty,
    free of separators, and neither [.] nor [..]. *)
Definition plain_component (name : str) : bool :=
  truthy name && negb (bool_decide (os.sep ∈ name))
  && negb (bool_decide (name = lit ".")) && negb (bool_decide (name = lit "..")).

(** A letter, a digit or a hyphen: the characters of a file name that
    [secure_filename] neither deletes nor strips. *)
Definition name_letter (c : char) : bool :=
  ((65 <=? c) && (c <=? 90)) || ((97 <=? c) && (c <=? 122))
  || ((48 <=? c) && (c <=? 57)) || (c =? 45).

Section Vocabulary.
Context `{Platform}.
Local Open Scope py_scope.

(** The text obtained from the hosted model: the call, then [.text]. *)
Definition model_text (n : nat) (contents : Contents Image) : Result str :=
  match generate_content n contents with
  | Ok response => text response
  | Raise e => Raise e
  end.

(** The fallible steps of [analyze_room] after the file is saved:
    decode, convert, call the model, read the text. *)
Definition analysis_text (filepath : str) : M str :=
  opened <- Image_open filepath ;;
  img <- lift (Image_convert opened (lit "RGB")) ;;
  response <-
    model_generate_content (CList [PText analysis_prompt; PImage img]) ;;
  lift (text response).

(** [path] is a direct entry of the upload folder. *)
Definition inside_upload_folder (path : str) : bool :=
  match remove_prefix (UPLOAD_FOLDER ++ [os.sep]) path with
  | Some name => plain_component name
  | None => false
  end.

(** Where [analyze_room] stores an upload. *)
Definition storage_path (file : FileStorage) : str :=
  os.path_join UPLOAD_FOLDER (secure_filename (filename file)).

Definition printed (line : str) (w : World) : World :=
  mkWorld (fs w) (stdout w ++ line ++ [10]) (model_calls w) (http_calls w).

Definition reply (s : str) : ViewResult :=
  RetResponse
    (mkResponse 200 (lit "application/json") (JObject [(lit "reply", JString s)])).

(** The world after one more call to the hosted model. *)
Definition called (contents : Contents Image) (w : World) : World :=
  mkWorld (fs w) (stdout w) (model_calls w ++ [contents]) (http_calls w).

(** The world after [file] has been written to its storage path. *)
Definition stored (file : FileStorage) (w : World) : World :=
  mkWorld (<[storage_path file := stream file]> (fs w)) (stdout w)
    (model_calls w) (http_calls w).

(** The world in which the storage path of [file] holds [bytes]. *)
Definition with_file (file : FileStorage) (bytes : list byte) (w : World)
    : World :=
  mkWorld (<[storage_path file := bytes]> (fs w)) (stdout w)
    (model_calls w) (http_calls w).

(** [request.args.get("query", "")], before stripping. *)
Definition query_arg (request : Request) : str :=
  lookup_default (args request) (lit "query") [].

(** [request.json.get("message", "")] for a body that is the object [d]. *)
Definition message_of (d : list (str * JSON)) : JSON :=
  lookup_default d (lit "message") (JString []).

End Vocabulary.

(** ** A concrete platform, to run the views on *)

Module demo.

Definition ConnectionError : Exn :=
  mkExn (lit "ConnectionError") (lit "connection refused").

Definition UnidentifiedImageError : Exn :=
  mkExn (lit "UnidentifiedImageError") (lit "cannot identify image file").

(** The hosted model is either [up], and answers every call with the
    same advice, or down, and every call raises. *)
Definition model (up : bool) (n : nat) (c : Contents (list byte))
    : Result GenerateContentResponse :=
  if up then Ok (mkGenResponse (Ok (lit "Add a floor lamp.")))
  else Raise ConnectionError.

(** Images are their bytes; only the empty file fails to decode. The
    inputs below are ASCII, on which NFKD is the identity. The disk is
    never full. *)
Definition platform (up : bool) : Platform :=
  {| BASE_DIR := lit "/srv/app";
     write_outcome := fun _ _ _ => Written;
     nfkd := fun s => s;
     Image := list byte;
     Image_decode := fun b =>
       match b with [] => Raise UnidentifiedImageError | _ => Ok b end;
     Image_convert := fun img _ => Ok img;
     generate_content := model up;
     render_template := fun name => Ok (lit "<!doctype html>" ++ name);
     py_str := fun _ => lit "<value>" |}.

Definition world0 (up : bool) : @World (platform up) :=
  @mkWorld (platform up) ∅ [] [] [].

Definition upload (name : string) (content : list byte) : Request :=
  mkRequest [] (Raise (mkExn (lit "UnsupportedMediaType") []))
    [(lit "image", mkFile (lit name) content)].

Definition chat (body : JSON) : Request := mkRequest [] (Ok body) [].

Definition search (query : string) : Request :=
  mkRequest [(lit "query", lit query)]
    (Raise (mkExn (lit "UnsupportedMediaType") [])) [].

Definition hello : JSON := JObject [(lit "message", JString (lit "hi"))].

(** An upload under an arbitrary name. *)
Definition upload_named (name : list N) (content : list byte) : Request :=
  mkRequest [] (Raise (mkExn (lit "UnsupportedMediaType") []))
    [(lit "image", mkFile name content)].

(** A name of 304 letters. *)
Definition long_name : list N := replicate 300 97 ++ lit ".png".

Definition first_bytes : list byte := ["o"; "n"; "e"]%byte.
Definition second_bytes : list byte := ["t"; "w"; "o"]%byte.

End demo.

(** * Properties *)

(** ** Stripping *)

Section Strip.
Variable p : N -> bool.

Lemma lstrip_suffix (s : list N) : ∃ pre, s = pre ++ lstrip p s.
Proof.
  induction s as [|c s IH]; simpl.
  - by exists [].
  - destruct (p c).
    + destruct IH as [pre Hpre]. exists (c :: pre). simpl. by f_equal.
    + by exists [].
Qed.

Lemma lstrip_head (s : list N) (c : N) (t : list N) :
  lstrip p s = c :: t → p c = false.
Proof.
  induction s as [|d s IH]; simpl; [done|].
  destruct (p d) eqn:Hd; [done|].
  intros [= <- _]. done.
Qed.

Lemma lstrip_nil (s : list N) : lstrip p s = [] ↔ forallb p s = true.
Proof.
  induction s as [|c s IH]; simpl; [done|].
  destruct (p c); simpl; [done|]. split; discriminate.
Qed.

Lemma rstrip_prefix (s : list N) : ∃ suf, s = rstrip p s ++ suf.
Proof.
  unfold rstrip. destruct (lstrip_suffix (reverse s)) as [pre Hpre].
  exists (reverse pre).
  rewrite <- reverse_app, <- Hpre. by rewrite reverse_involutive.
Qed.

Lemma forallb_reverse (s : list N) : forallb p (reverse s) = forallb p s.
Proof.
  induction s as [|c s IH]; [done|].
  rewrite reverse_cons, forallb_app. simpl. rewrite IH.
  destruct (p c), (forallb p s); done.
Qed.

Lemma rstrip_nil (s : list N) : rstrip p s = [] ↔ forallb p s = true.
Proof.
  unfold rstrip. rewrite <- forallb_reverse, <- lstrip_nil.
  split; intros Hs.
  - apply (f_equal reverse) in Hs. by rewrite reverse_involutive in Hs.
  - by rewrite Hs.
Qed.

(** Stripping leaves nothing exactly when every character is stripped. *)
Lemma strip_with_nil (s : list N) :
  strip_with p s = [] ↔ forallb p s = true.
Proof.
  unfold strip_with. rewrite rstrip_nil. split.
  - intros Hall. apply lstrip_nil.
    destruct (lstrip p s) as [|c t] eqn:Hl; [done|].
    apply lstrip_head in Hl. simpl in Hall. by rewrite Hl in Hall.
  - intros Hall. apply lstrip_nil in Hall. by rewrite Hall.
Qed.

(** What survives stripping is a contiguous part of the input. *)
Lemma strip_with_infix (s : list N) :
  ∃ pre suf, s = pre ++ strip_with p s ++ suf.
Proof.
  unfold strip_with.
  destruct (lstrip_suffix s) as [pre Hpre].
  destruct (rstrip_prefix (lstrip p s)) as [suf Hsuf].
  exists pre, suf. by rewrite <- Hsuf.
Qed.

Lemma strip_with_Forall (P : N → Prop) (s : list N) :
  Forall P s → Forall P (strip_with p s).
Proof.
  intros Hs. destruct (strip_with_infix s) as (pre & suf & Heq).
  rewrite Heq in Hs.
  apply Forall_app in Hs as [_ Hs]. by apply Forall_app in Hs as [Hs _].
Qed.

(** The first surviving character is not one of the stripped ones. *)
Lemma strip_with_head (s : list N) (c : N) (t : list N) :
  strip_with p s = c :: t → p c = false.
Proof.
  unfold strip_with. intros Hs.
  destruct (rstrip_prefix (lstrip p s)) as [suf Hsuf].
  rewrite Hs in Hsuf. simpl in Hsuf. by apply lstrip_head in Hsuf.
Qed.

End Strip.

(** ** Sanitised file names and storage paths *)

Lemma os_name_posix : bool_decide (os.name = lit "nt") = false.
Proof. reflexivity. Qed.

Section SecureFilename.
Variable nfkd : list N -> list N.

(** Only letters, digits, [_], [.] and [-] survive. *)
Lemma secure_filename_chars (filename : list N) :
  Forall (fun c => werkzeug.filename_char c = true)
    (werkzeug.secure_filename nfkd filename).
Proof.
  unfold werkzeug.secure_filename. rewrite os_name_posix. simpl.
  apply strip_with_Forall.
  apply Forall_forall. intros c Hc.
  apply list_elem_of_filter in Hc as [Hc _].
  by apply Is_true_eq_true.
Qed.

(** The name does not begin with a dot or an underscore. *)
Lemma secure_filename_head (filename : list N) (c : N) (t : list N) :
  werkzeug.secure_filename nfkd filename = c :: t → c ≠ 46 ∧ c ≠ 95.
Proof.
  unfold werkzeug.secure_filename. rewrite os_name_posix. simpl.
  intros Hs. apply strip_with_head in Hs.
  split; intros ->; discriminate Hs.
Qed.

Lemma secure_filename_no_sep (filename : list N) :
  os.sep ∉ werkzeug.secure_filename nfkd filename.
Proof.
  intros Hin.
  pose proof (secure_filename_chars filename) as Hall.
  rewrite Forall_forall in Hall. by apply Hall in Hin.
Qed.

(** A sanitised name is empty or an ordinary directory entry. *)
Lemma secure_filename_plain (filename : list N) :
  werkzeug.secure_filename nfkd filename ≠ [] →
  plain_component (werkzeug.secure_filename nfkd filename) = true.
Proof.
  intros Hne. unfold plain_component.
  pose proof (secure_filename_no_sep filename) as Hsep.
  pose proof (secure_filename_head filename) as Hhead.
  destruct (werkzeug.secure_filename nfkd filename) as [|c t]; [done|].
  destruct (Hhead c t eq_refl) as [Hdot _].
  simpl. rewrite (bool_decide_eq_false_2 _ Hsep). simpl.
  rewrite !bool_decide_eq_false_2; [done| |];
    intros [= -> _]; by apply Hdot.
Qed.

End SecureFilename.

Lemma utf8_length_ascii (s : list N) :
  Forall (fun c => c < 128) s → utf8_length s = N.of_nat (length s).
Proof.
  induction 1 as [|c s Hc Hs IH]; [done|].
  cbn [utf8_length foldr length]. fold (utf8_length s). rewrite IH.
  apply N.ltb_lt in Hc. rewrite Hc. lia.
Qed.

Lemma before_char_app (d : N) (s t : list N) :
  d ∉ s → before_char d (s ++ d :: t) = s.
Proof.
  induction s as [|c s IH]; intros Hd; simpl.
  - by rewrite N.eqb_refl.
  - apply not_elem_of_cons in Hd as [Hc Hs].
    destruct (c =? d) eqn:Heq.
    + apply N.eqb_eq in Heq. congruence.
    + by rewrite IH.
Qed.

Lemma basename_app (dir name : list N) :
  os.sep ∉ name → os.basename (dir ++ [os.sep] ++ name) = name.
Proof.
  intros Hsep. unfold os.basename.
  rewrite reverse_app, reverse_app, <- app_assoc. simpl.
  rewrite before_char_app.
  - apply reverse_involutive.
  - by rewrite elem_of_reverse.
Qed.

Lemma remove_prefix_app (pre s : list N) : remove_prefix pre (pre ++ s) = Some s.
Proof.
  induction pre as [|a pre IH]; simpl; [done|]. by rewrite N.eqb_refl.
Qed.

Lemma remove_prefix_Some (pre s t : list N) :
  remove_prefix pre s = Some t → s = pre ++ t.
Proof.
  revert s. induction pre as [|a pre IH]; intros s; simpl.
  - by intros [= ->].
  - destruct s as [|b s]; [done|].
    destruct (a =? b) eqn:Hab; [|done].
    apply N.eqb_eq in Hab as ->. intros Hs. f_equal. by apply IH.
Qed.

Section Paths.
Context `{Platform}.

Lemma UPLOAD_FOLDER_uploads : ∃ parent, UPLOAD_FOLDER = parent ++ lit "uploads".
Proof.
  unfold UPLOAD_FOLDER, os.path_join.
  change (startswith_char (lit "uploads") os.sep) with false. simpl.
  destruct (negb (truthy BASE_DIR) || endswith_char BASE_DIR os.sep).
  - by exists BASE_DIR.
  - exists (BASE_DIR ++ [os.sep]). by rewrite <- app_assoc.
Qed.

(** The upload folder is a non-empty path without a trailing slash. *)
Lemma UPLOAD_FOLDER_shape :
  truthy UPLOAD_FOLDER = true ∧ endswith_char UPLOAD_FOLDER os.sep = false.
Proof.
  destruct UPLOAD_FOLDER_uploads as [parent ->]. split.
  - by destruct parent.
  - unfold endswith_char.
    change (lit "uploads") with (lit "upload" ++ [115]).
    by rewrite app_assoc, last_snoc.
Qed.

(** Joining the upload folder with a sanitised name appends one
    separator and the name. *)
Lemma storage_path_eq (file : FileStorage) :
  storage_path file
  = UPLOAD_FOLDER ++ [os.sep] ++ secure_filename (filename file).
Proof.
  unfold storage_path, os.path_join.
  destruct UPLOAD_FOLDER_shape as [-> ->]. simpl.
  pose proof (secure_filename_no_sep nfkd (filename file)) as Hsep.
  fold secure_filename in Hsep.
  destruct (secure_filename (filename file)) as [|c t]; [done|].
  simpl. destruct (c =? os.sep) eqn:Hc; [|done].
  apply N.eqb_eq in Hc as ->. exfalso. apply Hsep. left.
Qed.

Lemma storage_path_directory (file : FileStorage) :
  endswith_char (storage_path file) os.sep
  = negb (truthy (secure_filename (filename file))).
Proof.
  rewrite storage_path_eq.
  pose proof (secure_filename_no_sep nfkd (filename file)) as Hsep.
  fold secure_filename in Hsep.
  unfold endswith_char.
  destruct (secure_filename (filename file)) as [|c t _] using rev_ind.
  - by rewrite app_nil_r, last_snoc.
  - rewrite !app_assoc, last_snoc.
    replace (truthy (t ++ [c])) with true by (by destruct t).
    apply N.eqb_neq. intros ->.
    apply Hsep, elem_of_app. right. left.
Qed.

Lemma storage_path_basename (file : FileStorage) :
  os.basename (storage_path file) = secure_filename (filename file).
Proof.
  rewrite storage_path_eq. apply basename_app.
  apply (secure_filename_no_sep nfkd).
Qed.

Lemma secure_filename_utf8_length (name : list N) :
  utf8_length (secure_filename name) = N.of_nat (length (secure_filename name)).
Proof.
  apply utf8_length_ascii.
  eapply Forall_impl; [apply (secure_filename_chars nfkd)|].
  intros c. unfold werkzeug.filename_char.
  rewrite !orb_true_iff, !andb_true_iff, !N.leb_le, !N.eqb_eq. lia.
Qed.

Lemma inside_upload_folder_spec (path : list N) :
  inside_upload_folder path = true
  ↔ ∃ name, path = UPLOAD_FOLDER ++ [os.sep] ++ name
            ∧ plain_component name = true.
Proof.
  unfold inside_upload_folder. split.
  - destruct (remove_prefix _ path) as [name|] eqn:Hpre; [|done].
    intros Hname. exists name. split; [|done].
    apply remove_prefix_Some in Hpre. by rewrite <- app_assoc in Hpre.
  - intros (name & -> & Hname). by rewrite app_assoc, remove_prefix_app.
Qed.

Lemma storage_path_inside (file : FileStorage) :
  secure_filename (filename file) ≠ [] →
  inside_upload_folder (storage_path file) = true.
Proof.
  intros Hne. unfold inside_upload_folder.
  rewrite storage_path_eq, app_assoc, remove_prefix_app.
  by apply secure_filename_plain.
Qed.

End Paths.

(** ** Running the views *)

Lemma getitem_contains {V : Type} (d : list (list N * V)) (key : list N) (v : V) :
  getitem d key = Ok v → contains d key = true.
Proof.
  unfold contains. intros Hget. apply bool_decide_eq_true.
  induction d as [|[k u] d IH]; simpl in *; [done|].
  case_bool_decide as Hk.
  - subst. left.
  - right. by apply IH.
Qed.

Lemma contains_getitem {V : Type} (d : list (list N * V)) (key : list N) :
  contains d key = true → ∃ v, getitem d key = Ok v.
Proof.
  unfold contains. intros Hin. apply bool_decide_eq_true in Hin.
  induction d as [|[k u] d IH]; simpl in *.
  - by apply elem_of_nil in Hin.
  - case_bool_decide as Hk; [by exists u|].
    apply elem_of_cons in Hin as [Hin|Hin]; [by subst|]. by apply IH.
Qed.

Lemma lookup_default_absent {V : Type} (d : list (list N * V)) (key : list N)
    (default : V) :
  contains d key = false → lookup_default d key default = default.
Proof.
  unfold contains. intros Habsent. apply bool_decide_eq_false in Habsent.
  induction d as [|[k v] d IH]; simpl in *; [done|].
  apply not_elem_of_cons in Habsent as [Hk Hd].
  rewrite bool_decide_eq_false_2 by done. by apply IH.
Qed.

Lemma lookup_default_getitem {V : Type} (d : list (list N * V)) (key : list N)
    (default v : V) :
  getitem d key = Ok v → lookup_default d key default = v.
Proof.
  induction d as [|[k u] d IH]; simpl; [done|].
  case_bool_decide; [by intros [= ->]|done].
Qed.

Section ViewFacts.
Context `{Platform}.
Local Open Scope py_scope.

(** The [try] statement of [analyze_room], in terms of its fallible
    steps: the model's text on success, the exception's text
    otherwise. *)
Lemma analysis_run (filepath : list N) (w : World) :
  try_except (opened <- Image_open filepath ;; analyze_image opened)
    analysis_failed w
  = match analysis_text filepath w with
    | (Ok t, w') => (Ok (reply t), w')
    | (Raise e, w') =>
        (Ok (reply (lit "AI analysis failed: " ++ exn_str e)),
         printed (lit "Gemini error: " ++ exn_str e) w')
    end.
Proof.
  unfold try_except, analysis_text, analyze_image, analysis_failed,
    bind, lift, ret, print, printed, reply, jsonify.
  destruct (Image_open filepath w) as [[opened|e] w1]; [|done].
  destruct (Image_convert opened (lit "RGB")) as [img|e]; [|done].
  destruct (model_generate_content _ w1) as [[response|e] w2]; [|done].
  by destruct (text response).
Qed.

(** Decoding and calling the model leave the disk as it is. *)
Lemma analysis_text_fs (filepath : list N) (w : World) :
  fs (analysis_text filepath w).2 = fs w.
Proof.
  unfold analysis_text, bind, lift, Image_open, model_generate_content.
  destruct (fs w !! filepath) as [bytes|]; [|done].
  destruct (Image_decode bytes) as [opened|e]; [|done].
  destruct (Image_convert opened (lit "RGB")) as [img|e]; [|done].
  by destruct (generate_content _ _) as [response|e].
Qed.

Lemma analysis_try_fs (filepath : list N) (w : World) :
  fs (try_except (opened <- Image_open filepath ;; analyze_image opened)
        analysis_failed w).2 = fs w.
Proof.
  rewrite analysis_run. pose proof (analysis_text_fs filepath w) as Hfs.
  by destruct (analysis_text filepath w) as [[t|e] w'].
Qed.

(** With an [image] part present, the view is the write followed by
    the [try] statement. *)
Lemma analyze_room_image (request : Request) (file : FileStorage) (w : World) :
  getitem (files request) (lit "image") = Ok file →
  analyze_room request w
  = (save file (storage_path file) ;;;
     try_except
       (opened <- Image_open (storage_path file) ;; analyze_image opened)
       analysis_failed) w.
Proof.
  intros Hfile. unfold analyze_room.
  rewrite (getitem_contains _ _ _ Hfile). simpl.
  unfold bind at 1, lift at 1. by rewrite Hfile.
Qed.

(** [file.save] at a storage path: the empty name and the name that is
    too long are refused, otherwise the operating system decides. *)
Lemma save_storage_path (file : FileStorage) (w : World) :
  save file (storage_path file) w
  = if negb (truthy (secure_filename (filename file)))
    then (Raise (IsADirectoryError (storage_path file)), w)
    else if os.NAME_MAX <? N.of_nat (length (secure_filename (filename file)))
    then (Raise (FileNameTooLong (storage_path file)), w)
    else match write_outcome (fs w) (storage_path file) (stream file) with
         | Written => (Ok tt, stored file w)
         | Refused e => (Raise e, w)
         | Interrupted e partial => (Raise e, with_file file partial w)
         end.
Proof.
  unfold save.
  by rewrite storage_path_directory, storage_path_basename,
    secure_filename_utf8_length.
Qed.

(** A write that succeeds leaves the upload at its storage path; it
    succeeds for a non-empty name only. *)
Lemma save_Ok (file : FileStorage) (w w1 : World) :
  save file (storage_path file) w = (Ok tt, w1) →
  w1 = stored file w ∧ secure_filename (filename file) ≠ [].
Proof.
  rewrite save_storage_path.
  destruct (secure_filename (filename file)) as [|c t]; [done|]. simpl.
  destruct (os.NAME_MAX <? _); [done|].
  destruct (write_outcome _ _ _); [|done..].
  by intros [= <-].
Qed.

(** Whatever [file.save] does, it changes at most the content of the
    storage path, and only when the sanitised name is not empty. *)
Lemma save_world (file : FileStorage) (w : World) :
  (save file (storage_path file) w).2 = w
  ∨ secure_filename (filename file) ≠ []
    ∧ ∃ bytes, (save file (storage_path file) w).2 = with_file file bytes w.
Proof.
  rewrite save_storage_path.
  destruct (secure_filename (filename file)) as [|c t]; [by left|]. simpl.
  destruct (os.NAME_MAX <? _); [by left|].
  destruct (write_outcome _ _ _) as [|e|e partial]; simpl.
  - right. split; [done|]. by exists (stream file).
  - by left.
  - right. split; [done|]. by exists partial.
Qed.

(** A write to [path] followed by [Image.open(path)] decodes what was
    just written. *)
Lemma Image_open_stored (file : FileStorage) (w : World) :
  Image_open (storage_path file) (stored file w)
  = (Image_decode (stream file), stored file w).
Proof. unfold Image_open, stored. simpl. by rewrite lookup_insert_eq. Qed.

(** [assistant_chat] on a body that is a JSON object. *)
Lemma assistant_chat_object (request : Request) (w : World)
    (d : list (list N * JSON)) :
  json request = Ok (JObject d) →
  assistant_chat request w
  = match model_text (length (model_calls w))
            (CStr (chat_prompt (message_of d))) with
    | Ok t => (Ok (reply t), called (CStr (chat_prompt (message_of d))) w)
    | Raise e =>
        (Ok (reply (lit "Assistant unavailable right now.")),
         printed (lit "Gemini chat error: " ++ exn_str e)
           (called (CStr (chat_prompt (message_of d))) w))
    end.
Proof.
  intros Hjson.
  unfold assistant_chat, bind, lift, try_except, ret, print,
    model_generate_content, model_text, message_of.
  rewrite Hjson. simpl.
  destruct (generate_content _ _) as [response|e]; [|done].
  by destruct (text response).
Qed.

(** When the write succeeds the upload is analysed in the world the
    write leaves. *)
Lemma analyze_room_saved (request : Request) (file : FileStorage)
    (w w1 : World) :
  getitem (files request) (lit "image") = Ok file →
  save file (storage_path file) w = (Ok tt, w1) →
  analyze_room request w
  = try_except
      (opened <- Image_open (storage_path file) ;; analyze_image opened)
      analysis_failed w1.
Proof.
  intros Hfile Hsave. rewrite (analyze_room_image _ _ _ Hfile).
  unfold bind at 1. by rewrite Hsave.
Qed.

(** When the write raises, the exception leaves the view. *)
Lemma analyze_room_unsaved (request : Request) (file : FileStorage)
    (w w' : World) (e : Exn) :
  getitem (files request) (lit "image") = Ok file →
  save file (storage_path file) w = (Raise e, w') →
  analyze_room request w = (Raise e, w').
Proof.
  intros Hfile Hsave. rewrite (analyze_room_image _ _ _ Hfile).
  unfold bind at 1. by rewrite Hsave.
Qed.

(** With an empty sanitised name the write fails and the exception
    leaves the view. *)
Lemma analyze_room_unnamed (request : Request) (file : FileStorage) (w : World) :
  getitem (files request) (lit "image") = Ok file →
  secure_filename (filename file) = [] →
  analyze_room request w
  = (Raise (IsADirectoryError (storage_path file)), w).
Proof.
  intros Hfile Hname. apply (analyze_room_unsaved _ _ _ _ _ Hfile).
  rewrite save_storage_path. by rewrite Hname.
Qed.

(** The disk after [analyze_room] is the disk after [file.save]. *)
Lemma analyze_room_save_fs (request : Request) (file : FileStorage) (w : World) :
  getitem (files request) (lit "image") = Ok file →
  fs (analyze_room request w).2 = fs (save file (storage_path file) w).2.
Proof.
  intros Hfile. rewrite (analyze_room_image _ _ _ Hfile). unfold bind at 1.
  destruct (save file (storage_path file) w) as [[[]|e] w1]; [|done].
  apply analysis_try_fs.
Qed.

(** [analyze_room] changes at most the content of one storage path, of
    non-empty name. *)
Lemma analyze_room_fs_shape (request : Request) (w : World) :
  fs (analyze_room request w).2 = fs w
  ∨ ∃ file bytes,
      getitem (files request) (lit "image") = Ok file
      ∧ secure_filename (filename file) ≠ []
      ∧ fs (analyze_room request w).2 = <[storage_path file := bytes]> (fs w).
Proof.
  destruct (contains (files request) (lit "image")) eqn:Hc.
  2: { left. unfold analyze_room. by rewrite Hc. }
  destruct (contains_getitem _ _ Hc) as [file Hfile].
  rewrite (analyze_room_save_fs _ _ _ Hfile).
  destruct (save_world file w) as [->|(Hname & bytes & ->)]; [by left|].
  right. by exists file, bytes.
Qed.

(** No view removes a file. *)
Lemma view_function_keeps_files (ep : Endpoint) (request : Request)
    (w : World) (p : list N) :
  is_Some (fs w !! p) → is_Some (fs (view_function ep request w).2 !! p).
Proof.
  intros Hp.
  destruct ep; simpl;
    try (unfold home, design_page, basic_designs, assistant_page,
           bind, lift, ret;
         by destruct (render_template _)).
  - unfold search_interiors, search_interiors_frame, bind, ret.
    by destruct (negb _).
  - unfold assistant_chat, bind, lift, try_except, ret, print,
      model_generate_content.
    destruct (json request) as [body|e]; [|done].
    destruct (py_get _ _ _) as [user_msg|e]; [|done].
    destruct (generate_content _ _) as [response|e]; [|done].
    by destruct (text response).
  - destruct (analyze_room_fs_shape request w)
      as [->|(file & bytes & _ & _ & ->)]; [done|].
    destruct (decide (storage_path file = p)) as [->|Hne].
    + rewrite lookup_insert_eq. by eexists.
    + by rewrite lookup_insert_ne.
Qed.

End ViewFacts.

(** ** The routes *)

Section Routes.
Context `{Platform}.
Local Open Scope py_scope.


(** C2. [/assistant-chat]: when the call to the hosted model raises an
    exception [e], the view prints [Gemini chat error: ] followed by
    the text of [e] on stdout and returns, as an ordinary value, the
    status-200 JSON response [{"reply": "Assistant unavailable right
    now."}]; the response does not depend on [e], and nothing is
    raised. *)
Theorem assistant_chat_model_failure (request : Request) (w : World)
    (d : list (list N * JSON)) (e : Exn) :
  json request = Ok (JObject d) →
  model_text (length (model_calls w)) (CStr (chat_prompt (message_of d)))
    = Raise e →
  assistant_chat request w
  = (Ok (RetResponse
           (mkResponse 200 (lit "application/json")
              (JObject [(lit "reply",
                         JString (lit "Assistant unavailable right now."))]))),
     printed (lit "Gemini chat error: " ++ exn_str e)
       (called (CStr (chat_prompt (message_of d))) w)).
Proof.
  intros Hjson Hmodel.
  unfold assistant_chat, bind, lift, try_except, ret, print,
    model_generate_content, model_text, message_of in *.
  rewrite Hjson. simpl.
  destruct (generate_content _ _) as [response|e'].
  - by rewrite Hmodel.
  - by injection Hmodel as ->.
Qed.

(** C3. [/analyze-room] with an [image] part whose file has been saved:
    if decoding the stored file, converting it to RGB or the call to
    the hosted model raises [e], the view returns
    [{"reply": "AI analysis failed: " + str(e)}]; if they all succeed
    it returns [{"reply": <model text>}]. *)
Theorem analyze_room_after_save (request : Request) (file : FileStorage)
    (w w1 : World) :
  getitem (files request) (lit "image") = Ok file →
  save file (storage_path file) w = (Ok tt, w1) →
  analyze_room request w
  = match analysis_text (storage_path file) w1 with
    | (Ok t, w2) => (Ok (reply t), w2)
    | (Raise e, w2) =>
        (Ok (reply (lit "AI analysis failed: " ++ exn_str e)),
         printed (lit "Gemini error: " ++ exn_str e) w2)
    end.
Proof.
  intros Hfile Hsave.
  rewrite (analyze_room_image _ _ _ Hfile).
  unfold bind at 1. rewrite Hsave. apply analysis_run.
Qed.

(** C4. [/analyze-room] without an [image] part returns
    [{"reply": "No image received."}] and leaves the world untouched:
    no file is written, nothing is printed, nothing is called. *)
Theorem analyze_room_no_image (request : Request) (w : World) :
  contains (files request) (lit "image") = false →
  analyze_room request w = (Ok (reply (lit "No image received.")), w).
Proof. intros Hnone. unfold analyze_room. by rewrite Hnone. Qed.

(** C5, amended. Two uploads in sequence whose file names sanitise to
    the same name and whose writes both succeed: the first is stored at
    the storage path, the second replaces it there, and the analysis of
    the second request decodes the bytes of the second file. No view
    removes a stored file. *)
Theorem same_name_upload_overwrites (request1 request2 : Request)
    (file1 file2 : FileStorage) (w0 s1 s2 : World) :
  getitem (files request1) (lit "image") = Ok file1 →
  getitem (files request2) (lit "image") = Ok file2 →
  secure_filename (filename file1) = secure_filename (filename file2) →
  save file1 (storage_path file1) w0 = (Ok tt, s1) →
  save file2 (storage_path file2) (analyze_room request1 w0).2 = (Ok tt, s2) →
  let w1 := (analyze_room request1 w0).2 in
  let w2 := (analyze_room request2 w1).2 in
  storage_path file1 = storage_path file2
  ∧ fs w1 !! storage_path file2 = Some (stream file1)
  ∧ fs w2 !! storage_path file2 = Some (stream file2)
  ∧ analyze_room request2 w1
    = try_except
        (opened <- lift (Image_decode (stream file2)) ;; analyze_image opened)
        analysis_failed (stored file2 w1)
  ∧ ∀ (ep : Endpoint) (request : Request) (w : World) (p : list N),
      is_Some (fs w !! p) → is_Some (fs (view_function ep request w).2 !! p).
Proof.
  intros Hfile1 Hfile2 Hsame Hsave1 Hsave2 w1 w2.
  assert (storage_path file1 = storage_path file2) as Hpath
    by (unfold storage_path; by rewrite Hsame).
  destruct (save_Ok _ _ _ Hsave1) as [-> _].
  destruct (save_Ok _ _ _ Hsave2) as [-> _]. fold w1 in Hsave2.
  split; [done|]. split; [|split; [|split]].
  - subst w1. rewrite (analyze_room_saved _ _ _ _ Hfile1 Hsave1).
    rewrite analysis_try_fs. simpl. rewrite Hpath.
    apply lookup_insert_eq.
  - subst w2. rewrite (analyze_room_saved _ _ _ _ Hfile2 Hsave2).
    rewrite analysis_try_fs. simpl. apply lookup_insert_eq.
  - rewrite (analyze_room_saved _ _ _ _ Hfile2 Hsave2).
    unfold try_except, bind. rewrite Image_open_stored. reflexivity.
  - apply view_function_keeps_files.
Qed.

(** C6. [/assistant-chat] with message text [m]: the view calls the
    hosted model once, with the persona sentence, a newline, [User: ]
    and [m] itself, unchanged; when the model answers with text [t]
    the view returns [{"reply": t}]. *)
Theorem assistant_chat_prompt (request : Request) (w : World)
    (d : list (list N * JSON)) (m : list N) :
  json request = Ok (JObject d) →
  message_of d = JString m →
  let prompt :=
    lit "You are Gruha, a helpful interior design assistant." ++ [10]
      ++ lit "User: " ++ m in
  model_calls (assistant_chat request w).2 = model_calls w ++ [CStr prompt]
  ∧ ∀ t : list N,
      model_text (length (model_calls w)) (CStr prompt) = Ok t →
      assistant_chat request w = (Ok (reply t), called (CStr prompt) w).
Proof.
  intros Hjson Hmsg prompt.
  rewrite (assistant_chat_object _ _ _ Hjson). rewrite Hmsg.
  change (chat_prompt (JString m)) with prompt.
  split.
  - by destruct (model_text _ _).
  - by intros t ->.
Qed.

(** C7, amended. [/assistant-chat] with a body that is a JSON object
    without a [message] member, or whose [message] is the empty string: the message used
    is the empty string, and the view returns, without raising, a
    status-200 JSON response whose [reply] is a string, the model's
    text or the fixed fallback. *)
Theorem assistant_chat_empty_message (request : Request) (w : World)
    (d : list (list N * JSON)) :
  json request = Ok (JObject d) →
  contains d (lit "message") = false
    ∨ getitem d (lit "message") = Ok (JString []) →
  message_of d = JString []
  ∧ (assistant_chat request w).1
    = Ok (RetResponse
            (mkResponse 200 (lit "application/json")
               (JObject
                  [(lit "reply",
                    JString
                      match model_text (length (model_calls w))
                              (CStr (chat_prompt (JString []))) with
                      | Ok t => t
                      | Raise _ => lit "Assistant unavailable right now."
                      end)]))).
Proof.
  intros Hjson Hmsg.
  assert (message_of d = JString []) as Hempty.
  { unfold message_of. destruct Hmsg as [Habsent|Hpresent].
    - by apply lookup_default_absent.
    - by apply lookup_default_getitem. }
  split; [done|].
  rewrite (assistant_chat_object _ _ _ Hjson), Hempty.
  by destruct (model_text _ _).
Qed.

(** C8, amended. [/analyze-room] checks nothing before it writes an
    uploaded file: whatever the extension, the size or the content,
    when [file.save] succeeds the file is at its storage path when the
    request ends. *)
Theorem analyze_room_stores_any_file (request : Request)
    (file : FileStorage) (w w1 : World) :
  getitem (files request) (lit "image") = Ok file →
  save file (storage_path file) w = (Ok tt, w1) →
  fs (analyze_room request w).2 !! storage_path file = Some (stream file).
Proof.
  intros Hfile Hsave. rewrite (analyze_room_saved _ _ _ _ Hfile Hsave).
  rewrite analysis_try_fs. destruct (save_Ok _ _ _ Hsave) as [-> _].
  simpl. apply lookup_insert_eq.
Qed.

(** C9. For every client-supplied file name, the storage path is the
    upload folder, one separator and the sanitised name; the sanitised
    name holds no separator and is neither [.] nor [..]; and every
    path whose content [/analyze-room] changes is that storage path, a
    direct entry of the upload folder. *)
Theorem upload_stays_inside_upload_folder (request : Request)
    (file : FileStorage) (w : World) :
  getitem (files request) (lit "image") = Ok file →
  storage_path file
    = UPLOAD_FOLDER ++ [os.sep] ++ secure_filename (filename file)
  ∧ (os.sep ∉ secure_filename (filename file))
  ∧ secure_filename (filename file) ≠ lit "."
  ∧ secure_filename (filename file) ≠ lit ".."
  ∧ ∀ p : list N,
      (fs (analyze_room request w).2 !! p) ≠ (fs w !! p) →
      p = storage_path file ∧ inside_upload_folder p = true.
Proof.
  intros Hfile.
  split; [apply storage_path_eq|].
  split; [apply secure_filename_no_sep|].
  assert (∀ t, secure_filename (filename file) ≠ 46 :: t) as Hdot.
  { intros t Ht. by destruct (secure_filename_head _ _ _ _ Ht). }
  split; [apply Hdot|]. split; [apply Hdot|].
  intros p Hchanged.
  rewrite (analyze_room_save_fs _ _ _ Hfile) in Hchanged.
  destruct (save_world file w) as [Hsame|(Hne & bytes & Hwritten)].
  - by rewrite Hsame in Hchanged.
  - rewrite Hwritten in Hchanged. simpl in Hchanged.
    destruct (decide (storage_path file = p)) as [<-|Hother].
    + split; [done|]. by apply storage_path_inside.
    + by rewrite lookup_insert_ne in Hchanged.
Qed.

(** C10. [/analyze-room] with an [image] part runs the write before
    the [try] statement. When the write is done and a later step
    (decoding, conversion, the model call) raises [e], the view
    returns the error reply, and the disk is the one after the write:
    the uploaded file is still at its storage path, the earlier state
    is not restored. *)
Theorem failed_analysis_keeps_file (request : Request) (file : FileStorage)
    (w w1 w2 : World) (e : Exn) :
  getitem (files request) (lit "image") = Ok file →
  save file (storage_path file) w = (Ok tt, w1) →
  analysis_text (storage_path file) w1 = (Raise e, w2) →
  analyze_room request w
  = (save file (storage_path file) ;;;
     try_except
       (opened <- Image_open (storage_path file) ;; analyze_image opened)
       analysis_failed) w
  ∧ analyze_room request w
    = (Ok (reply (lit "AI analysis failed: " ++ exn_str e)),
       printed (lit "Gemini error: " ++ exn_str e) w2)
  ∧ fs (analyze_room request w).2
    = <[storage_path file := stream file]> (fs w)
  ∧ fs (analyze_room request w).2 !! storage_path file = Some (stream file).
Proof.
  intros Hfile Hsave Htext.
  pose proof (analyze_room_image request file w Hfile) as Hrun.
  assert (analyze_room request w
          = (Ok (reply (lit "AI analysis failed: " ++ exn_str e)),
             printed (lit "Gemini error: " ++ exn_str e) w2)) as Hreply.
  { rewrite Hrun. unfold bind at 1. rewrite Hsave, analysis_run.
    by rewrite Htext. }
  assert (fs w2 = <[storage_path file := stream file]> (fs w)) as Hfs.
  { pose proof (analysis_text_fs (storage_path file) w1) as Hkeep.
    rewrite Htext in Hkeep. simpl in Hkeep. rewrite Hkeep.
    by destruct (save_Ok _ _ _ Hsave) as [-> _]. }
  split; [done|]. split; [done|].
  rewrite Hreply. simpl. rewrite Hfs.
  split; [done|]. apply lookup_insert_eq.
Qed.

End Routes.

(** ** The routes on the concrete platform *)

Example secure_filename_traversal :
  werkzeug.secure_filename (fun s => s) (lit "../../etc/passwd") = lit "etc_passwd".
Proof. vm_compute. reflexivity. Qed.

Example secure_filename_spaces :
  werkzeug.secure_filename (fun s => s) (lit "My cool movie.mov")
  = lit "My_cool_movie.mov".
Proof. vm_compute. reflexivity. Qed.

Example secure_filename_dots :
  werkzeug.secure_filename (fun s => s) (lit "..") = [].
Proof. vm_compute. reflexivity. Qed.

Example search_blank_query :
  @search_interiors (demo.platform true) (demo.search "  ") (demo.world0 true)
  = (Ok (jsonify (JObject [(lit "images", JArray [])])), demo.world0 true).
Proof. vm_compute. reflexivity. Qed.

Example search_sofa :
  @search_interiors (demo.platform true) (demo.search " sofa ") (demo.world0 true)
  = (Ok RetNone, demo.world0 true).
Proof. vm_compute. reflexivity. Qed.

(** With the model down, the chat view answers with the fallback and
    logs the error. *)
Lemma assistant_chat_model_failure_witness :
  @assistant_chat (demo.platform false) (demo.chat demo.hello) (demo.world0 false)
  = (Ok (reply (lit "Assistant unavailable right now.")),
     @mkWorld (demo.platform false) ∅
       (lit "Gemini chat error: connection refused" ++ [10])
       [CStr (lit "You are Gruha, a helpful interior design assistant."
                ++ [10] ++ lit "User: hi")]
       []).
Proof.
  refine (eq_trans
    (@assistant_chat_model_failure (demo.platform false)
       (demo.chat demo.hello) (demo.world0 false)
       [(lit "message", JString (lit "hi"))] demo.ConnectionError
       eq_refl eq_refl) _).
  vm_compute. reflexivity.
Defined.

(** A saved upload analysed with the model up, and with the model down. *)
Lemma analyze_room_after_save_witness :
  (@analyze_room (demo.platform true)
     (demo.upload "room.png" demo.first_bytes) (demo.world0 true)).1
  = Ok (reply (lit "Add a floor lamp."))
  ∧ (@analyze_room (demo.platform false)
       (demo.upload "room.png" demo.first_bytes) (demo.world0 false)).1
    = Ok (reply (lit "AI analysis failed: connection refused")).
Proof.
  split.
  - refine (eq_trans (f_equal fst
      (@analyze_room_after_save (demo.platform true)
         (demo.upload "room.png" demo.first_bytes)
         (mkFile (lit "room.png") demo.first_bytes)
         (demo.world0 true)
         (@stored (demo.platform true)
            (mkFile (lit "room.png") demo.first_bytes) (demo.world0 true))
         eq_refl eq_refl)) _).
    vm_compute. reflexivity.
  - refine (eq_trans (f_equal fst
      (@analyze_room_after_save (demo.platform false)
         (demo.upload "room.png" demo.first_bytes)
         (mkFile (lit "room.png") demo.first_bytes)
         (demo.world0 false)
         (@stored (demo.platform false)
            (mkFile (lit "room.png") demo.first_bytes) (demo.world0 false))
         eq_refl eq_refl)) _).
    vm_compute. reflexivity.
Defined.

(** A chat request carries no file. *)
Lemma analyze_room_no_image_witness :
  @analyze_room (demo.platform true) (demo.chat demo.hello) (demo.world0 true)
  = (Ok (reply (lit "No image received.")), demo.world0 true).
Proof.
  apply (@analyze_room_no_image (demo.platform true)). reflexivity.
Defined.

(** Two uploads that both sanitise to [room_1.jpg]: the second one is
    what the disk holds afterwards. *)
Lemma same_name_upload_overwrites_witness :
  let w1 :=
    (@analyze_room (demo.platform true)
       (demo.upload "room 1.jpg" demo.first_bytes) (demo.world0 true)).2 in
  let w2 :=
    (@analyze_room (demo.platform true)
       (demo.upload "room_1.jpg" demo.second_bytes) w1).2 in
  fs w1 !! lit "/srv/app/uploads/room_1.jpg" = Some demo.first_bytes
  ∧ fs w2 !! lit "/srv/app/uploads/room_1.jpg" = Some demo.second_bytes.
Proof.
  pose proof
    (@same_name_upload_overwrites (demo.platform true)
       (demo.upload "room 1.jpg" demo.first_bytes)
       (demo.upload "room_1.jpg" demo.second_bytes)
       (mkFile (lit "room 1.jpg") demo.first_bytes)
       (mkFile (lit "room_1.jpg") demo.second_bytes)
       (demo.world0 true)
       (@stored (demo.platform true)
          (mkFile (lit "room 1.jpg") demo.first_bytes) (demo.world0 true))
       (@stored (demo.platform true)
          (mkFile (lit "room_1.jpg") demo.second_bytes)
          (@analyze_room (demo.platform true)
             (demo.upload "room 1.jpg" demo.first_bytes) (demo.world0 true)).2)
       eq_refl eq_refl eq_refl eq_refl ltac:(vm_compute; reflexivity))
    as (_ & Hfirst & Hsecond & _).
  split; [exact Hfirst | exact Hsecond].
Defined.

(** The prompt for the message [hi]. *)
Lemma assistant_chat_prompt_witness :
  @assistant_chat (demo.platform true) (demo.chat demo.hello) (demo.world0 true)
  = (Ok (reply (lit "Add a floor lamp.")),
     @mkWorld (demo.platform true) ∅ []
       [CStr (lit "You are Gruha, a helpful interior design assistant."
                ++ [10] ++ lit "User: hi")]
       []).
Proof.
  refine (eq_trans
    (proj2
       (@assistant_chat_prompt (demo.platform true)
          (demo.chat demo.hello) (demo.world0 true)
          [(lit "message", JString (lit "hi"))] (lit "hi") eq_refl eq_refl)
       (lit "Add a floor lamp.") eq_refl) _).
  vm_compute. reflexivity.
Defined.

(** The body [{}], with the model down. *)
Lemma assistant_chat_empty_message_witness :
  (@assistant_chat (demo.platform false) (demo.chat (JObject []))
     (demo.world0 false)).1
  = Ok (reply (lit "Assistant unavailable right now.")).
Proof.
  refine (eq_trans
    (proj2
       (@assistant_chat_empty_message (demo.platform false)
          (demo.chat (JObject [])) (demo.world0 false) []
          eq_refl (or_introl eq_refl))) _).
  vm_compute. reflexivity.
Defined.

(** An executable is not among the allowed extensions, and is stored. *)
Lemma analyze_room_stores_any_file_witness :
(lit "exe" ∉ ALLOWED_EXTENSIONS)
  ∧ fs (@analyze_room (demo.platform true)
          (demo.upload "setup.exe" demo.first_bytes) (demo.world0 true)).2
      !! lit "/srv/app/uploads/setup.exe"
    = Some demo.first_bytes.
Proof.
  split.
  - apply (bool_decide_eq_false_1 (lit "exe" ∈ ALLOWED_EXTENSIONS)).
    vm_compute. reflexivity.
  - apply (@analyze_room_stores_any_file (demo.platform true)
             (demo.upload "setup.exe" demo.first_bytes)
             (mkFile (lit "setup.exe") demo.first_bytes)
             (demo.world0 true)
             (@stored (demo.platform true)
                (mkFile (lit "setup.exe") demo.first_bytes)
                (demo.world0 true))
             eq_refl).
    vm_compute. reflexivity.
Defined.

(** A traversal attempt is stored as [etc_passwd] in the upload folder. *)
Lemma upload_stays_inside_upload_folder_witness :
  @storage_path (demo.platform true)
    (mkFile (lit "../../etc/passwd") demo.first_bytes)
  = lit "/srv/app/uploads/etc_passwd"
  ∧ @inside_upload_folder (demo.platform true)
      (lit "/srv/app/uploads/etc_passwd") = true.
Proof.
  pose proof
    (@upload_stays_inside_upload_folder (demo.platform true)
       (demo.upload "../../etc/passwd" demo.first_bytes)
       (mkFile (lit "../../etc/passwd") demo.first_bytes)
       (demo.world0 true) eq_refl)
    as (Hpath & _ & _ & _ & Hchanged).
  split.
  - refine (eq_trans Hpath _). vm_compute. reflexivity.
  - apply (Hchanged (lit "/srv/app/uploads/etc_passwd")).
    vm_compute. discriminate.
Defined.

(** With the model down the upload is rejected with the error reply and
    stays on disk. *)
Lemma failed_analysis_keeps_file_witness :
  (@analyze_room (demo.platform false)
     (demo.upload "room.png" demo.first_bytes) (demo.world0 false)).1
  = Ok (reply (lit "AI analysis failed: connection refused"))
  ∧ fs (@analyze_room (demo.platform false)
          (demo.upload "room.png" demo.first_bytes) (demo.world0 false)).2
      !! lit "/srv/app/uploads/room.png"
    = Some demo.first_bytes.
Proof.
  pose proof
    (@failed_analysis_keeps_file (demo.platform false)
       (demo.upload "room.png" demo.first_bytes)
       (mkFile (lit "room.png") demo.first_bytes)
       (demo.world0 false)
       (@stored (demo.platform false)
          (mkFile (lit "room.png") demo.first_bytes) (demo.world0 false))
       (@called (demo.platform false)
          (CList [PText analysis_prompt; PImage demo.first_bytes])
          (@stored (demo.platform false)
             (mkFile (lit "room.png") demo.first_bytes) (demo.world0 false)))
       demo.ConnectionError eq_refl eq_refl eq_refl)
    as (_ & Hreply & _ & Hfile).
  split.
  - exact (f_equal fst Hreply).
  - exact Hfile.
Defined.

(** ** Uploads whose name sanitises to nothing *)

(** C7 as stated fails for the body [null]: it lacks the [message]
    field, [request.json] is [None], and [None.get] raises
    [AttributeError] before the [try] statement is entered. *)
Lemma null_body_raises :
  @assistant_chat (demo.platform true) (demo.chat JNull) (demo.world0 true)
  = (Raise (mkExn (lit "AttributeError")
              (lit "'NoneType' object has no attribute 'get'")),
     demo.world0 true).
Proof. vm_compute. reflexivity. Qed.

(** C8 as stated fails for the file name [..]: the sanitised name is
    empty, the storage path is the upload folder itself, the write
    raises and the disk stays empty. *)
Lemma dotdot_upload_not_written :
  @secure_filename (demo.platform true) (lit "..") = []
  ∧ @analyze_room (demo.platform true)
      (demo.upload ".." demo.first_bytes) (demo.world0 true)
    = (Raise (IsADirectoryError (lit "/srv/app/uploads/")), demo.world0 true)
  ∧ fs (@analyze_room (demo.platform true)
          (demo.upload ".." demo.first_bytes) (demo.world0 true)).2
      !! @storage_path (demo.platform true) (mkFile (lit "..") demo.first_bytes)
    = None.
Proof. vm_compute. repeat split. Qed.

(** C5 as stated fails for two uploads named [.] and [..]: both names
    sanitise to the empty name, neither write happens, the second
    request raises before any analysis, and nothing is stored. *)
Lemma dot_uploads_not_overwritten :
  @secure_filename (demo.platform true) (lit ".")
    = @secure_filename (demo.platform true) (lit "..")
  ∧ (let w1 :=
       (@analyze_room (demo.platform true)
          (demo.upload "." demo.first_bytes) (demo.world0 true)).2 in
     @analyze_room (demo.platform true)
       (demo.upload ".." demo.second_bytes) w1
     = (Raise (IsADirectoryError (lit "/srv/app/uploads/")), demo.world0 true)
     ∧ fs (@analyze_room (demo.platform true)
             (demo.upload ".." demo.second_bytes) w1).2
         !! @storage_path (demo.platform true)
              (mkFile (lit "..") demo.second_bytes)
       ≠ Some demo.second_bytes).
Proof. vm_compute. repeat split. discriminate. Qed.

(** * Further properties *)

(** ** More on stripping, splitting and joining *)

Section StripMore.
Variable p : N -> bool.

Lemma strip_with_last (s : list N) (c : N) :
  last (strip_with p s) = Some c → p c = false.
Proof.
  unfold strip_with, rstrip. rewrite last_reverse.
  destruct (lstrip p (reverse (lstrip p s))) as [|d t] eqn:Hl; [done|].
  intros [= <-]. by apply lstrip_head in Hl.
Qed.

Lemma lstrip_id (s : list N) :
  (∀ c, head s = Some c → p c = false) → lstrip p s = s.
Proof.
  destruct s as [|c t]; [done|]. intros Hhead. simpl.
  by rewrite (Hhead c eq_refl).
Qed.

Lemma rstrip_id (s : list N) :
  (∀ c, last s = Some c → p c = false) → rstrip p s = s.
Proof.
  intros Hlast. unfold rstrip. rewrite lstrip_id.
  - apply reverse_involutive.
  - intros c. rewrite head_reverse. apply Hlast.
Qed.

(** Text that neither begins nor ends with a stripped character is left
    alone. *)
Lemma strip_with_id (s : list N) :
  (∀ c, head s = Some c → p c = false) →
  (∀ c, last s = Some c → p c = false) →
  strip_with p s = s.
Proof.
  intros Hhead Hlast. unfold strip_with.
  rewrite (lstrip_id s Hhead). by apply rstrip_id.
Qed.

Lemma strip_with_idempotent (s : list N) :
  strip_with p (strip_with p s) = strip_with p s.
Proof.
  apply strip_with_id.
  - intros c Hc. destruct (strip_with p s) as [|d t] eqn:Hs; [done|].
    injection Hc as ->. by apply strip_with_head in Hs.
  - apply strip_with_last.
Qed.

Lemma strip_with_length (s : list N) : (length (strip_with p s) ≤ length s)%nat.
Proof.
  destruct (strip_with_infix p s) as (pre & suf & Heq).
  rewrite Heq at 2. rewrite !length_app. lia.
Qed.

End StripMore.

Section Join.
Variable sep : list N.

Lemma elem_of_join (x : N) (parts : list (list N)) :
  x ∈ join sep parts → x ∈ sep ∨ ∃ part, part ∈ parts ∧ x ∈ part.
Proof.
  induction parts as [|part parts IH]; simpl.
  - intros Hx. by apply elem_of_nil in Hx.
  - destruct parts as [|part' parts].
    + intros Hx. right. exists part. split; [left|done].
    + rewrite !elem_of_app. intros [Hx|[Hx|Hx]].
      * right. exists part. split; [left|done].
      * by left.
      * destruct (IH Hx) as [Hsep|(q & Hq & Hxq)]; [by left|].
        right. exists q. split; [by right|done].
Qed.

Lemma elem_of_join_part (x : N) (part : list N) (parts : list (list N)) :
  part ∈ parts → x ∈ part → x ∈ join sep parts.
Proof.
  intros Hpart Hx. induction parts as [|q parts IH].
  - by apply elem_of_nil in Hpart.
  - assert (x ∈ q ∨ x ∈ join sep parts) as Hcase.
    { apply elem_of_cons in Hpart as [->|Hpart]; [by left|right; by apply IH]. }
    simpl. destruct parts as [|q' parts].
    + destruct Hcase as [Hq|Hnil]; [done|]. by apply elem_of_nil in Hnil.
    + rewrite !elem_of_app. destruct Hcase; [by left|by right; right].
Qed.

Lemma join_cons_length (part : list N) (parts : list (list N)) :
  (length (join sep (part :: parts))
   ≤ length part + length sep + length (join sep parts))%nat.
Proof.
  destruct parts as [|q parts]; simpl; [lia|].
  rewrite !length_app. lia.
Qed.

End Join.

(** The pieces of [s.split()] are made of the non-whitespace characters
    of [s], and of those only. *)
Lemma split_ws_from_parts (cur s part : list N) (x : N) :
  part ∈ split_ws_from cur s → x ∈ part →
  x ∈ cur ∨ (x ∈ s ∧ isspace x = false).
Proof.
  revert cur. induction s as [|c s IH]; intros cur; simpl.
  - destruct cur as [|d cur]; [intros Hp; by apply elem_of_nil in Hp|].
    intros Hp Hx. apply list_elem_of_singleton in Hp as ->.
    left. by rewrite elem_of_reverse in Hx.
  - destruct (isspace c) eqn:Hc.
    + destruct cur as [|d cur].
      * intros Hp Hx. destruct (IH [] Hp Hx) as [Hnil|[Hs Hsp]].
        -- by apply elem_of_nil in Hnil.
        -- right. split; [by right|done].
      * intros Hp Hx. apply elem_of_cons in Hp as [->|Hp].
        -- left. by rewrite elem_of_reverse in Hx.
        -- destruct (IH [] Hp Hx) as [Hnil|[Hs Hsp]].
           ++ by apply elem_of_nil in Hnil.
           ++ right. split; [by right|done].
    + intros Hp Hx. destruct (IH (c :: cur) Hp Hx) as [Hcur|[Hs Hsp]].
      * apply elem_of_cons in Hcur as [->|Hcur]; [|by left].
        right. split; [left|done].
      * right. split; [by right|done].
Qed.

Lemma split_ws_from_cur (cur s : list N) (x : N) :
  x ∈ cur → ∃ part, part ∈ split_ws_from cur s ∧ x ∈ part.
Proof.
  revert cur. induction s as [|c s IH]; intros cur Hx; simpl.
  - destruct cur as [|d cur]; [by apply elem_of_nil in Hx|].
    exists (reverse (d :: cur)). split; [left|by rewrite elem_of_reverse].
  - destruct (isspace c).
    + destruct cur as [|d cur]; [by apply elem_of_nil in Hx|].
      exists (reverse (d :: cur)). split; [left|by rewrite elem_of_reverse].
    + apply IH. by right.
Qed.

Lemma split_ws_from_keeps (cur s : list N) (x : N) :
  x ∈ s → isspace x = false → ∃ part, part ∈ split_ws_from cur s ∧ x ∈ part.
Proof.
  revert cur. induction s as [|c s IH]; intros cur Hx Hsp.
  - by apply elem_of_nil in Hx.
  - simpl. apply elem_of_cons in Hx as [<-|Hx].
    + rewrite Hsp. apply split_ws_from_cur. left.
    + destruct (isspace c).
      * destruct cur as [|d cur].
        -- by apply IH.
        -- destruct (IH [] Hx Hsp) as (part & Hpart & Hin).
           exists part. split; [by right|done].
      * by apply IH.
Qed.

(** Text without whitespace is one piece. *)
Lemma split_ws_from_solid (cur s : list N) :
  Forall (fun c => isspace c = false) s →
  split_ws_from cur s
  = match reverse cur ++ s with [] => [] | piece => [piece] end.
Proof.
  revert cur. induction s as [|c s IH]; intros cur Hs; simpl.
  - rewrite app_nil_r. destruct cur as [|d cur]; [done|].
    destruct (reverse (d :: cur)) as [|e t] eqn:Hr; [|done].
    apply (f_equal length) in Hr. by rewrite length_reverse in Hr.
  - apply Forall_cons in Hs as [Hc Hs]. rewrite Hc.
    rewrite (IH (c :: cur) Hs), reverse_cons, <- app_assoc. done.
Qed.

Lemma split_join_length (sep : list N) (cur s : list N) :
  (length sep ≤ 1)%nat →
  (length (join sep (split_ws_from cur s)) ≤ length cur + length s)%nat.
Proof.
  intros Hsep. revert cur. induction s as [|c s IH]; intros cur; simpl.
  - destruct cur as [|d cur]; simpl; [lia|].
    rewrite length_reverse. simpl. lia.
  - destruct (isspace c).
    + destruct cur as [|d cur].
      * specialize (IH []). simpl in IH. lia.
      * pose proof (join_cons_length sep (reverse (d :: cur))
                      (split_ws_from [] s)) as Hj.
        specialize (IH []). rewrite length_reverse in Hj. simpl in *. lia.
    + specialize (IH (c :: cur)). simpl in IH. lia.
Qed.

Lemma forallb_elem_of (f : N → bool) (l : list N) :
  forallb f l = true ↔ ∀ x, x ∈ l → f x = true.
Proof.
  induction l as [|c l IH]; simpl.
  - split; [|done]. intros _ x Hx. by apply elem_of_nil in Hx.
  - rewrite andb_true_iff, IH. split.
    + intros [Hc Hl] x Hx. apply elem_of_cons in Hx as [->|Hx]; auto.
    + intros Hall. split; [apply Hall; left|].
      intros x Hx. apply Hall. by right.
Qed.

Lemma filter_Forall_id (P : N → Prop) `{!∀ c, Decision (P c)} (l : list N) :
  Forall P l → filter P l = l.
Proof.
  induction 1 as [|c l Hc Hl IH]; [done|].
  rewrite filter_cons_True by done. by rewrite IH.
Qed.

Lemma replace_char_absent (old new : N) (s : list N) :
  old ∉ s → replace_char old new s = s.
Proof.
  unfold replace_char. induction s as [|c s IH]; [done|].
  intros Habsent. apply not_elem_of_cons in Habsent as [Hc Hs].
  rewrite fmap_cons, IH by done.
  destruct (c =? old) eqn:Heq; [|done].
  apply N.eqb_eq in Heq. congruence.
Qed.

(** ** The characters of a sanitised name *)

Lemma filename_char_cases (c : N) :
  werkzeug.filename_char c = true ↔ name_letter c = true ∨ c = 95 ∨ c = 46.
Proof.
  unfold werkzeug.filename_char, name_letter.
  rewrite !orb_true_iff, !andb_true_iff, !N.leb_le, !N.eqb_eq. lia.
Qed.

Lemma name_letter_ascii (c : N) : name_letter c = true → c < 128 ∧ c ≠ os.sep.
Proof.
  unfold name_letter, os.sep.
  rewrite !orb_true_iff, !andb_true_iff, !N.leb_le, !N.eqb_eq. lia.
Qed.

Lemma name_letter_not_space (c : N) : name_letter c = true → isspace c = false.
Proof.
  intros Hc. apply not_true_iff_false. revert Hc.
  unfold name_letter, isspace.
  rewrite !orb_true_iff, !andb_true_iff, !N.leb_le, !N.eqb_eq. lia.
Qed.

Lemma char_in_dot_underscore (c : N) :
  char_in (lit "._") c = true ↔ c = 46 ∨ c = 95.
Proof.
  unfold char_in. rewrite bool_decide_eq_true.
  change (lit "._") with [46; 95].
  rewrite !elem_of_cons, elem_of_nil. tauto.
Qed.

Lemma filename_char_ascii (c : N) : werkzeug.filename_char c = true → c < 128.
Proof.
  unfold werkzeug.filename_char.
  rewrite !orb_true_iff, !andb_true_iff, !N.leb_le, !N.eqb_eq. lia.
Qed.

Lemma filename_char_not_space (c : N) :
  werkzeug.filename_char c = true → isspace c = false.
Proof.
  intros Hc. apply not_true_iff_false. revert Hc.
  unfold werkzeug.filename_char, isspace.
  rewrite !orb_true_iff, !andb_true_iff, !N.leb_le, !N.eqb_eq. lia.
Qed.

Section SanitisedNames.
Variable nfkd : list N -> list N.

(** [secure_filename] on a POSIX system, step by step. *)
Lemma secure_filename_steps (filename : list N) :
  werkzeug.secure_filename nfkd filename
  = strip_with (char_in (lit "._"))
      (filter (fun c => Is_true (werkzeug.filename_char c))
         (join (lit "_")
            (split_ws
               (replace_char os.sep 32
                  (filter (fun c => c < 128) (nfkd filename)))))).
Proof. unfold werkzeug.secure_filename. by rewrite os_name_posix. Qed.

Lemma secure_filename_last (filename : list N) (c : N) :
  last (werkzeug.secure_filename nfkd filename) = Some c → c ≠ 46 ∧ c ≠ 95.
Proof.
  rewrite secure_filename_steps. intros Hlast.
  apply strip_with_last in Hlast.
  split; intros ->; discriminate Hlast.
Qed.

Lemma secure_filename_nil (filename : list N) :
  werkzeug.secure_filename nfkd filename = []
  ↔ Forall (fun c => name_letter c = false) (nfkd filename).
Proof.
  rewrite secure_filename_steps, strip_with_nil, forallb_elem_of, Forall_forall.
  split.
  - intros Hall c Hc. destruct (name_letter c) eqn:Hletter; [|done].
    destruct (name_letter_ascii c Hletter) as [Hascii Hsep].
    assert (char_in (lit "._") c = true) as Hin.
    { apply Hall. apply list_elem_of_filter. split.
      - apply Is_true_true. apply filename_char_cases. by left.
      - destruct (split_ws_from_keeps []
                    (replace_char os.sep 32
                       (filter (fun c => c < 128) (nfkd filename))) c)
          as (part & Hpart & Hcp).
        + unfold replace_char. apply list_elem_of_fmap.
          exists c. split.
          * apply N.eqb_neq in Hsep. by rewrite Hsep.
          * by apply list_elem_of_filter.
        + by apply name_letter_not_space.
        + by apply (elem_of_join_part _ _ part). }
    apply char_in_dot_underscore in Hin. revert Hletter.
    unfold name_letter.
    rewrite !orb_true_iff, !andb_true_iff, !N.leb_le, !N.eqb_eq. lia.
  - intros Hnone x Hx. apply list_elem_of_filter in Hx as [Hchar Hx].
    apply Is_true_true in Hchar.
    apply char_in_dot_underscore.
    apply elem_of_join in Hx as [Hx|(part & Hpart & Hx)].
    + change (lit "_") with [95] in Hx.
      apply list_elem_of_singleton in Hx. by right.
    + destruct (split_ws_from_parts _ _ _ _ Hpart Hx) as [Hnil|[Hin Hsp]];
        [by apply elem_of_nil in Hnil|].
      unfold replace_char in Hin.
      apply list_elem_of_fmap in Hin as (y & -> & Hy).
      destruct (y =? os.sep) eqn:Hsep; [done|].
      apply list_elem_of_filter in Hy as [_ Hy].
      specialize (Hnone y Hy).
      apply filename_char_cases in Hchar as [Hletter|[->| ->]];
        [congruence|by right|by left].
Qed.

(** Sanitising a sanitised name changes nothing, provided NFKD leaves
    ASCII text alone (as the Unicode tables do). *)
Lemma secure_filename_fixpoint (filename : list N) :
  (∀ s, Forall (fun c => c < 128) s → nfkd s = s) →
  werkzeug.secure_filename nfkd (werkzeug.secure_filename nfkd filename)
  = werkzeug.secure_filename nfkd filename.
Proof.
  intros Hnfkd.
  pose proof (secure_filename_chars nfkd filename) as Hchars.
  pose proof (secure_filename_no_sep nfkd filename) as Hsep.
  rewrite (secure_filename_steps (werkzeug.secure_filename nfkd filename)).
  assert (Forall (fun c => c < 128) (werkzeug.secure_filename nfkd filename))
    as Hascii.
  { eapply Forall_impl; [exact Hchars|]. apply filename_char_ascii. }
  rewrite (Hnfkd _ Hascii), (filter_Forall_id _ _ Hascii).
  rewrite (replace_char_absent _ _ _ Hsep).
  unfold split_ws. rewrite split_ws_from_solid.
  2: { eapply Forall_impl; [exact Hchars|]. apply filename_char_not_space. }
  assert (join (lit "_")
            match reverse [] ++ werkzeug.secure_filename nfkd filename with
            | [] => []
            | piece => [piece]
            end
          = werkzeug.secure_filename nfkd filename) as ->.
  { by destruct (werkzeug.secure_filename nfkd filename). }
  rewrite filter_Forall_id.
  2: { eapply Forall_impl; [exact Hchars|]. intros c Hc. by apply Is_true_true. }
  rewrite secure_filename_steps. apply strip_with_idempotent.
Qed.

Lemma secure_filename_length (filename : list N) :
  (length (werkzeug.secure_filename nfkd filename) ≤ length (nfkd filename))%nat.
Proof.
  rewrite secure_filename_steps.
  etransitivity; [apply strip_with_length|].
  etransitivity; [apply length_filter|].
  etransitivity; [apply (split_join_length (lit "_") []); simpl; lia|].
  unfold replace_char. simpl. rewrite length_fmap. apply length_filter.
Qed.

End SanitisedNames.

(** ** The views, case by case *)

Section ViewCases.
Context `{Platform}.
Local Open Scope py_scope.

(** The fallible steps of the analysis leave the world as it is or add
    one model call, nothing else. *)
Lemma analysis_text_frame (filepath : list N) (w : World) :
  (analysis_text filepath w).2 = w
  ∨ ∃ c, (analysis_text filepath w).2 = called c w.
Proof.
  unfold analysis_text, bind, lift, Image_open, model_generate_content, called.
  destruct (fs w !! filepath) as [bytes|]; [|by left].
  destruct (Image_decode bytes) as [opened|e]; [|by left].
  destruct (Image_convert opened (lit "RGB")) as [img|e]; [|by left].
  right. exists (CList [PText analysis_prompt; PImage img]).
  by destruct (generate_content _ _) as [response|e].
Qed.

(** The three ways [analyze_room] can go. *)
Lemma analyze_room_cases (request : Request) (w : World) :
  (contains (files request) (lit "image") = false
   ∧ analyze_room request w = (Ok (reply (lit "No image received.")), w))
  ∨ (∃ file e w',
       getitem (files request) (lit "image") = Ok file
       ∧ save file (storage_path file) w = (Raise e, w')
       ∧ analyze_room request w = (Raise e, w'))
  ∨ (∃ file w1,
       getitem (files request) (lit "image") = Ok file
       ∧ save file (storage_path file) w = (Ok tt, w1)
       ∧ analyze_room request w
         = match analysis_text (storage_path file) w1 with
           | (Ok t, w') => (Ok (reply t), w')
           | (Raise e, w') =>
               (Ok (reply (lit "AI analysis failed: " ++ exn_str e)),
                printed (lit "Gemini error: " ++ exn_str e) w')
           end).
Proof.
  destruct (contains (files request) (lit "image")) eqn:Hc.
  - destruct (contains_getitem _ _ Hc) as [file Hfile]. right.
    destruct (save file (storage_path file) w) as [[[]|e] w1] eqn:Hsave.
    + right. exists file, w1. split; [done|]. split; [done|].
      rewrite (analyze_room_saved _ _ _ _ Hfile Hsave). apply analysis_run.
    + left. exists file, e, w1. split; [done|]. split; [done|].
      by apply (analyze_room_unsaved _ file).
  - left. split; [done|]. unfold analyze_room. by rewrite Hc.
Qed.

(** [assistant_chat] on anything but a JSON object: the exception of
    [request.json], or the [AttributeError] of [.get], leaves the view
    before the [try] statement is entered. *)
Lemma assistant_chat_not_object (request : Request) (w : World) :
  (∀ d, json request ≠ Ok (JObject d)) →
  assistant_chat request w
  = (Raise match json request with
           | Raise e => e
           | Ok body => AttributeError body (lit "get")
           end,
     w).
Proof.
  intros Hbody. unfold assistant_chat, bind, lift.
  destruct (json request) as [body|e]; [|done].
  destruct body; try done. by destruct (Hbody items).
Qed.

Lemma static_or_search_world (ep : Endpoint) (request : Request) (w : World) :
  ep ≠ ep_assistant_chat → ep ≠ ep_analyze_room →
  (view_function ep request w).2 = w.
Proof.
  intros Hchat Hroom.
  destruct ep; try done; simpl;
    try (unfold home, design_page, basic_designs, assistant_page,
           bind, lift, ret;
         by destruct (render_template _)).
  unfold search_interiors, search_interiors_frame, bind, ret.
  by destruct (negb _).
Qed.

Lemma static_or_search_result (ep : Endpoint) (request : Request) (w : World)
    (r : Response) :
  ep ≠ ep_assistant_chat → ep ≠ ep_analyze_room →
  (view_function ep request w).1 = Ok (RetResponse r) →
  r = mkResponse 200 (lit "application/json") (JObject [(lit "images", JArray [])]).
Proof.
  intros Hchat Hroom.
  destruct ep; try done; simpl;
    try (unfold home, design_page, basic_designs, assistant_page,
           bind, lift, ret;
         by destruct (render_template _)).
  unfold search_interiors, search_interiors_frame, bind, ret, jsonify.
  destruct (negb _); simpl; [|done]. by intros [= <-].
Qed.

(** The world after [assistant_chat]: untouched, or one model call and
    perhaps one printed line. *)
Lemma assistant_chat_world (request : Request) (w : World) :
  (assistant_chat request w).2 = w
  ∨ ∃ c, (assistant_chat request w).2 = called c w
         ∨ ∃ line, (assistant_chat request w).2 = printed line (called c w).
Proof.
  destruct (json request) as [body|e] eqn:Hjson.
  2: { left. rewrite assistant_chat_not_object; [done|]. intros d. by rewrite Hjson. }
  destruct body;
    try (left; rewrite assistant_chat_not_object;
         [done | intros d; by rewrite Hjson]).
  right. exists (CStr (chat_prompt (message_of items))).
  rewrite (assistant_chat_object _ _ _ Hjson).
  destruct (model_text _ _) as [t|e]; [by left|].
  right. by eexists.
Qed.

(** The world after [analyze_room]: the world after the write, then
    perhaps one model call, then perhaps one printed line. *)
Lemma analyze_room_world (request : Request) (w : World) :
  ∃ w0,
    (w0 = w ∨ ∃ file bytes, w0 = with_file file bytes w)
    ∧ ∃ w1, (w1 = w0 ∨ ∃ c, w1 = called c w0)
            ∧ ((analyze_room request w).2 = w1
               ∨ ∃ line, (analyze_room request w).2 = printed line w1).
Proof.
  destruct (analyze_room_cases request w)
    as [[_ ->]|[(file & e & w' & _ & Hsave & ->)
               |(file & w1 & _ & Hsave & ->)]].
  - exists w. split; [by left|]. exists w. split; [by left|by left].
  - exists w'. split.
    + destruct (save_world file w) as [Hw|(_ & bytes & Hw)];
        rewrite Hsave in Hw; simpl in Hw; [by left|right; by exists file, bytes].
    + exists w'. split; [by left|by left].
  - exists w1. split.
    + destruct (save_world file w) as [Hw|(_ & bytes & Hw)];
        rewrite Hsave in Hw; simpl in Hw; [by left|right; by exists file, bytes].
    + exists (analysis_text (storage_path file) w1).2.
      split; [apply analysis_text_frame|].
      destruct (analysis_text _ _) as [[t|e] w']; simpl; [by left|].
      right. by eexists.
Qed.

End ViewCases.

Section FurtherFacts.
Context `{Platform}.
Local Open Scope py_scope.

Lemma getitem_absent {V : Type} (d : list (list N * V)) (key : list N) :
  contains d key = false → getitem d key = Raise (KeyError key).
Proof.
  unfold contains. intros Habsent. apply bool_decide_eq_false in Habsent.
  induction d as [|[k v] d IH]; simpl in *; [done|].
  apply not_elem_of_cons in Habsent as [Hk Hd].
  rewrite bool_decide_eq_false_2 by done. by apply IH.
Qed.

Lemma storage_path_inj (file1 file2 : FileStorage) :
  storage_path file1 = storage_path file2 →
  secure_filename (filename file1) = secure_filename (filename file2).
Proof.
  rewrite !storage_path_eq, !app_assoc. apply app_inv_head.
Qed.

(** X1. The four static pages and [/search-interiors] leave the world
    exactly as they found it: they write no file, print nothing, and
    call neither the hosted model nor any HTTP service. *)
Theorem static_and_search_views_are_pure (ep : Endpoint) (request : Request)
    (w : World) :
  ep ≠ ep_assistant_chat → ep ≠ ep_analyze_room →
  (view_function ep request w).2 = w.
Proof. apply static_or_search_world. Qed.

(** X2. The query that [search_interiors] works with is already
    stripped: stripping it again changes nothing, and it neither begins
    nor ends with a whitespace character. *)
Theorem search_query_is_stripped (request : Request) :
  strip (strip (query_arg request)) = strip (query_arg request)
  ∧ match head (strip (query_arg request)) with
    | Some c => isspace c = false
    | None => True
    end
  ∧ match last (strip (query_arg request)) with
    | Some c => isspace c = false
    | None => True
    end.
Proof.
  unfold strip. split; [apply strip_with_idempotent|]. split.
  - destruct (strip_with isspace (query_arg request)) as [|c t] eqn:Hs; [done|].
    by apply strip_with_head in Hs.
  - destruct (last (strip_with isspace (query_arg request))) as [c|] eqn:Hs;
      [|done].
    by apply strip_with_last in Hs.
Qed.

(** X3. [/assistant-chat] with a body that is not a JSON object: when
    [request.json] raises, that exception leaves the view; when the body
    is another JSON value, [.get] raises [AttributeError]. Either way
    the view raises before the [try] statement, the model is not called
    and the world is unchanged. *)
Theorem assistant_chat_rejects_non_object (request : Request) (w : World) :
  (∀ d, json request ≠ Ok (JObject d)) →
  assistant_chat request w
  = (Raise match json request with
           | Raise e => e
           | Ok body => AttributeError body (lit "get")
           end,
     w).
Proof. apply assistant_chat_not_object. Qed.

(** X4. [/assistant-chat] with any JSON object as body, whatever the
    type of its [message]: the view does not raise; it calls the model
    exactly once, with the persona prompt followed by the formatted
    message; it returns a status-200 JSON reply; it leaves the disk
    alone; and it prints one line exactly when the model failed. *)
Theorem assistant_chat_any_message (request : Request) (w : World)
    (d : list (list N * JSON)) :
  json request = Ok (JObject d) →
  (assistant_chat request w).1
  = Ok (RetResponse
          (mkResponse 200 (lit "application/json")
             (JObject
                [(lit "reply",
                  JString
                    match model_text (length (model_calls w))
                            (CStr (chat_prompt (message_of d))) with
                    | Ok t => t
                    | Raise _ => lit "Assistant unavailable right now."
                    end)])))
  ∧ model_calls (assistant_chat request w).2
    = model_calls w ++ [CStr (chat_prompt (message_of d))]
  ∧ fs (assistant_chat request w).2 = fs w
  ∧ stdout (assistant_chat request w).2
    = stdout w
      ++ match model_text (length (model_calls w))
                 (CStr (chat_prompt (message_of d))) with
         | Ok _ => []
         | Raise e => lit "Gemini chat error: " ++ exn_str e ++ [10]
         end.
Proof.
  intros Hjson. rewrite (assistant_chat_object _ _ _ Hjson).
  destruct (model_text _ _) as [t|e]; simpl.
  - by rewrite app_nil_r.
  - repeat split.
Qed.

(** X5. [/analyze-room] with an upload whose sanitised name is empty:
    the storage path is the upload folder followed by the separator,
    [file.save] raises [IsADirectoryError] for it, the exception leaves
    the view, and the world is unchanged. *)
Theorem analyze_room_empty_name (request : Request) (file : FileStorage)
    (w : World) :
  getitem (files request) (lit "image") = Ok file →
  secure_filename (filename file) = [] →
  analyze_room request w
  = (Raise (IsADirectoryError (UPLOAD_FOLDER ++ [os.sep])), w).
Proof.
  intros Hfile Hname. rewrite (analyze_room_unnamed _ _ _ Hfile Hname).
  by rewrite storage_path_eq, Hname.
Qed.


(** X7. The sanitised name is empty exactly when the NFKD form of the
    client's file name holds no ASCII letter, digit or hyphen. *)
Theorem empty_name_iff_no_letter (name : list N) :
  secure_filename name = []
  ↔ Forall (fun c => name_letter c = false) (nfkd name).
Proof. apply secure_filename_nil. Qed.

(** X8. A sanitised name is made of ASCII letters, digits, [_], [.] and
    [-] only, and neither begins nor ends with a dot or an underscore;
    in particular no upload is stored as a dot-file. *)
Theorem sanitised_name_shape (name : list N) :
  Forall (fun c => werkzeug.filename_char c = true) (secure_filename name)
  ∧ match head (secure_filename name) with
    | Some c => c ≠ 46 ∧ c ≠ 95
    | None => True
    end
  ∧ match last (secure_filename name) with
    | Some c => c ≠ 46 ∧ c ≠ 95
    | None => True
    end.
Proof.
  split; [apply secure_filename_chars|]. split.
  - destruct (secure_filename name) as [|c t] eqn:Hs; [done|].
    by apply (secure_filename_head nfkd name c t).
  - destruct (last (secure_filename name)) as [c|] eqn:Hs; [|done].
    by apply (secure_filename_last nfkd name).
Qed.

(** X9. When NFKD leaves ASCII text unchanged, sanitising is
    idempotent: a file uploaded under its stored name keeps that name. *)
Theorem secure_filename_idempotent (name : list N) :
  (∀ s, Forall (fun c => c < 128) s → nfkd s = s) →
  secure_filename (secure_filename name) = secure_filename name.
Proof. apply secure_filename_fixpoint. Qed.

(** X10. An upload that is written but cannot be decoded or converted
    never reaches the hosted model: the view prints the error and
    returns the error reply in the world the write left, the list of
    model calls is unchanged, and the file stays on disk. *)
Theorem undecodable_upload_skips_model (request : Request)
    (file : FileStorage) (w w1 : World) (e : Exn) :
  getitem (files request) (lit "image") = Ok file →
  save file (storage_path file) w = (Ok tt, w1) →
  match Image_decode (stream file) with
  | Ok opened => Image_convert opened (lit "RGB")
  | Raise e' => Raise e'
  end = Raise e →
  analyze_room request w
  = (Ok (reply (lit "AI analysis failed: " ++ exn_str e)),
     printed (lit "Gemini error: " ++ exn_str e) w1)
  ∧ model_calls (analyze_room request w).2 = model_calls w
  ∧ fs (analyze_room request w).2 !! storage_path file = Some (stream file).
Proof.
  intros Hfile Hsave Hfail.
  destruct (save_Ok _ _ _ Hsave) as [Hw1 _].
  assert (analysis_text (storage_path file) w1 = (Raise e, w1)) as Htext.
  { subst w1. unfold analysis_text, bind, lift. rewrite Image_open_stored.
    destruct (Image_decode (stream file)) as [opened|e'].
    - by rewrite Hfail.
    - by injection Hfail as ->. }
  rewrite (analyze_room_saved _ _ _ _ Hfile Hsave), analysis_run, Htext.
  subst w1. simpl. split; [done|]. split; [done|]. apply lookup_insert_eq.
Qed.

(** X11. When the upload is written, decodes and converts, the hosted
    model is called once, with the analysis prompt (the nine lines of
    the source, as they are indented there) and the converted image and
    nothing else: neither the file name nor the raw bytes are sent. *)
Theorem analyze_room_model_input (request : Request) (file : FileStorage)
    (w w1 : World) (opened img : Image) :
  getitem (files request) (lit "image") = Ok file →
  save file (storage_path file) w = (Ok tt, w1) →
  Image_decode (stream file) = Ok opened →
  Image_convert opened (lit "RGB") = Ok img →
  model_calls (analyze_room request w).2
  = model_calls w
    ++ [CList
          [PText
             (join [10]
                [ [];
                  lit "        You are an expert interior designer.";
                  [];
                  lit "        Analyze this room and provide:";
                  lit "        " ++ [8226] ++ lit " What you observe";
                  lit "        " ++ [8226] ++ lit " Improvement suggestions";
                  lit "        " ++ [8226] ++ lit " Furniture ideas";
                  lit "        " ++ [8226] ++ lit " Estimated budget in INR";
                  lit "        " ]);
           PImage img]].
Proof.
  intros Hfile Hsave Hopen Hconv.
  destruct (save_Ok _ _ _ Hsave) as [Hw1 _].
  rewrite (analyze_room_saved _ _ _ _ Hfile Hsave), analysis_run. subst w1.
  unfold analysis_text, bind, lift. rewrite Image_open_stored, Hopen, Hconv.
  unfold model_generate_content.
  destruct (generate_content _ _) as [response|e]; [|done].
  by destruct (text response).
Qed.

(** X12. Two uploads in sequence whose sanitised names differ and whose
    writes both succeed are stored at different paths, and both files
    are on disk afterwards. *)
Theorem distinct_names_both_stored (request1 request2 : Request)
    (file1 file2 : FileStorage) (w0 s1 s2 : World) :
  getitem (files request1) (lit "image") = Ok file1 →
  getitem (files request2) (lit "image") = Ok file2 →
  secure_filename (filename file1) ≠ secure_filename (filename file2) →
  save file1 (storage_path file1) w0 = (Ok tt, s1) →
  save file2 (storage_path file2) (analyze_room request1 w0).2 = (Ok tt, s2) →
  let w1 := (analyze_room request1 w0).2 in
  let w2 := (analyze_room request2 w1).2 in
  storage_path file1 ≠ storage_path file2
  ∧ fs w2 !! storage_path file1 = Some (stream file1)
  ∧ fs w2 !! storage_path file2 = Some (stream file2).
Proof.
  intros Hfile1 Hfile2 Hdiff Hsave1 Hsave2 w1 w2.
  assert (storage_path file1 ≠ storage_path file2) as Hpath.
  { intros Heq. by apply Hdiff, storage_path_inj. }
  split; [done|]. subst w2 w1.
  rewrite (analyze_room_save_fs _ _ _ Hfile2), Hsave2.
  destruct (save_Ok _ _ _ Hsave2) as [-> _]. simpl.
  rewrite (analyze_room_save_fs _ _ _ Hfile1), Hsave1.
  destruct (save_Ok _ _ _ Hsave1) as [-> _]. simpl.
  split.
  - rewrite lookup_insert_ne by done. apply lookup_insert_eq.
  - apply lookup_insert_eq.
Qed.

(** X13. The disk after [analyze_room] is the disk that [file.save]
    leaves (the disk before, when there is no [image] part): nothing
    after the write touches the disk. When the same request is sent
    twice and both writes succeed, the disk after the second is the disk
    after the first. *)
Theorem analyze_room_disk_effect (request : Request) (w : World) :
  fs (analyze_room request w).2
  = match getitem (files request) (lit "image") with
    | Ok file => fs (save file (storage_path file) w).2
    | Raise _ => fs w
    end
  ∧ ∀ (file : FileStorage) (w1 w2 : World),
      getitem (files request) (lit "image") = Ok file →
      save file (storage_path file) w = (Ok tt, w1) →
      save file (storage_path file) (analyze_room request w).2 = (Ok tt, w2) →
      fs (analyze_room request (analyze_room request w).2).2
      = fs (analyze_room request w).2.
Proof.
  split.
  - destruct (getitem (files request) (lit "image")) as [file|e] eqn:Hfile.
    + by apply analyze_room_save_fs.
    + destruct (contains (files request) (lit "image")) eqn:Hc.
      * destruct (contains_getitem _ _ Hc) as [file Hfile']. congruence.
      * unfold analyze_room. by rewrite Hc.
  - intros file w1 w2 Hfile Hsave1 Hsave2.
    rewrite (analyze_room_save_fs _ _ _ Hfile), Hsave2.
    destruct (save_Ok _ _ _ Hsave2) as [-> _]. simpl.
    rewrite (analyze_room_save_fs _ _ _ Hfile), Hsave1.
    destruct (save_Ok _ _ _ Hsave1) as [-> _]. simpl.
    apply insert_insert_eq.
Qed.

(** X14. No view sends an HTTP request, and no view other than
    [analyze_room] changes the disk. *)
Theorem only_analyze_room_writes (ep : Endpoint) (request : Request)
    (w : World) :
  http_calls (view_function ep request w).2 = http_calls w
  ∧ (ep ≠ ep_analyze_room → fs (view_function ep request w).2 = fs w).
Proof.
  destruct ep; try (by rewrite static_or_search_world); simpl.
  - destruct (assistant_chat_world request w) as [->|(c & [->|[line ->]])];
      done.
  - split; [|done].
    destruct (analyze_room_world request w) as (w0 & Hw0 & w1 & Hw1 & Hw).
    assert (http_calls w0 = http_calls w) as <-.
    { by destruct Hw0 as [->|(file & bytes & ->)]. }
    assert (http_calls w1 = http_calls w0) as <-.
    { by destruct Hw1 as [->|[c ->]]. }
    by destruct Hw as [->|[line ->]].
Qed.

(** X15. A view calls the hosted model at most once per request, and
    keeps the record of the earlier calls. *)
Theorem at_most_one_model_call (ep : Endpoint) (request : Request)
    (w : World) :
  model_calls (view_function ep request w).2 = model_calls w
  ∨ ∃ c, model_calls (view_function ep request w).2 = model_calls w ++ [c].
Proof.
  destruct ep; try (left; by rewrite static_or_search_world); simpl.
  - destruct (assistant_chat_world request w) as [->|(c & [->|[line ->]])];
      [by left|right; by exists c|right; by exists c].
  - destruct (analyze_room_world request w) as (w0 & Hw0 & w1 & Hw1 & Hw).
    assert (model_calls (analyze_room request w).2 = model_calls w1) as ->.
    { by destruct Hw as [->|[line ->]]. }
    assert (model_calls w0 = model_calls w) as <-.
    { by destruct Hw0 as [->|(file & bytes & ->)]. }
    destruct Hw1 as [->|[c ->]]; [by left|right; by exists c].
Qed.

(** X16. Whenever a view returns a response object (rather than
    raising, or returning a page or [None]), that object is a
    status-200 JSON response whose body is an object with a single
    member. *)
Theorem responses_are_200_json (ep : Endpoint) (request : Request)
    (w : World) (r : Response) :
  (view_function ep request w).1 = Ok (RetResponse r) →
  status r = 200
  ∧ mimetype r = lit "application/json"
  ∧ ∃ key value, data r = JObject [(key, value)].
Proof.
  destruct ep;
    try (intros Hr; apply static_or_search_result in Hr as ->; [|done..];
         by eauto);
    simpl.
  - destruct (json request) as [body|e] eqn:Hjson.
    2: { rewrite assistant_chat_not_object; [done|].
         intros d. by rewrite Hjson. }
    destruct body;
      try (rewrite assistant_chat_not_object;
           [by rewrite Hjson | intros d; by rewrite Hjson]).
    rewrite (assistant_chat_object _ _ _ Hjson).
    destruct (model_text _ _) as [t|e]; intros [= <-]; eauto.
  - destruct (analyze_room_cases request w)
      as [[_ ->]|[(file & e & w' & _ & _ & ->)|(file & w1 & _ & _ & ->)]];
      simpl.
    + intros [= <-]. eauto.
    + done.
    + destruct (analysis_text _ _) as [[t|e] w']; intros [= <-]; eauto.
Qed.

(** X17. The sanitised name is never longer than the NFKD form of the
    client's file name. *)
Theorem sanitised_name_not_longer (name : list N) :
  (length (secure_filename name) ≤ length (nfkd name))%nat.
Proof. apply secure_filename_length. Qed.

(** X18. [/analyze-room] with an upload whose sanitised name is longer
    than [os.NAME_MAX] bytes: [file.save] raises [OSError] (errno 36,
    file name too long), the exception leaves the view, and the world is
    unchanged. *)
Theorem long_name_upload_raises (request : Request) (file : FileStorage)
    (w : World) :
  getitem (files request) (lit "image") = Ok file →
  os.NAME_MAX < N.of_nat (length (secure_filename (filename file))) →
  analyze_room request w = (Raise (FileNameTooLong (storage_path file)), w).
Proof.
  intros Hfile Hlong. apply (analyze_room_unsaved _ _ _ _ _ Hfile).
  rewrite save_storage_path.
  destruct (secure_filename (filename file)) as [|c t] eqn:Hname.
  - simpl in Hlong. unfold os.NAME_MAX in Hlong. lia.
  - simpl negb. cbv iota. apply N.ltb_lt in Hlong. by rewrite Hlong.
Qed.

End FurtherFacts.

(** ** The further facts on the concrete platform *)

Lemma static_and_search_views_are_pure_witness :
  (@view_function (demo.platform true) ep_home (demo.search "sofa")
     (demo.world0 true)).2 = demo.world0 true
  ∧ (@view_function (demo.platform true) ep_search_interiors
       (demo.search "sofa") (demo.world0 true)).2 = demo.world0 true.
Proof.
  split.
  - by apply (@static_and_search_views_are_pure (demo.platform true) ep_home).
  - by apply (@static_and_search_views_are_pure (demo.platform true)
                ep_search_interiors).
Defined.

(** The body [[]] is JSON, but has no [get]. *)
Lemma assistant_chat_rejects_non_object_witness :
  @assistant_chat (demo.platform true) (demo.chat (JArray [])) (demo.world0 true)
  = (Raise (AttributeError (JArray []) (lit "get")), demo.world0 true).
Proof.
  refine (eq_trans
    (@assistant_chat_rejects_non_object (demo.platform true)
       (demo.chat (JArray [])) (demo.world0 true) _) _).
  - intros d. discriminate.
  - reflexivity.
Defined.

(** The message [null] is sent to the model as [None]. *)
Lemma assistant_chat_any_message_witness :
  model_calls
    (@assistant_chat (demo.platform true)
       (demo.chat (JObject [(lit "message", JNull)])) (demo.world0 true)).2
  = [CStr (lit "You are Gruha, a helpful interior design assistant."
             ++ [10] ++ lit "User: None")].
Proof.
  refine (eq_trans
    (proj1 (proj2
       (@assistant_chat_any_message (demo.platform true)
          (demo.chat (JObject [(lit "message", JNull)])) (demo.world0 true)
          [(lit "message", JNull)] eq_refl))) _).
  vm_compute. reflexivity.
Defined.

(** A form submitted without choosing a file carries an empty name. *)
Lemma analyze_room_empty_name_witness :
  @analyze_room (demo.platform true) (demo.upload EmptyString demo.first_bytes)
    (demo.world0 true)
  = (Raise (IsADirectoryError (lit "/srv/app/uploads/")), demo.world0 true).
Proof.
  refine (eq_trans
    (@analyze_room_empty_name (demo.platform true)
       (demo.upload EmptyString demo.first_bytes) (mkFile [] demo.first_bytes)
       (demo.world0 true) eq_refl eq_refl) _).
  vm_compute. reflexivity.
Defined.


Lemma empty_name_iff_no_letter_witness :
  @secure_filename (demo.platform true) (lit "._ /..") = [].
Proof.
  apply (@empty_name_iff_no_letter (demo.platform true)).
  vm_compute. repeat constructor.
Defined.

Lemma secure_filename_idempotent_witness :
  @secure_filename (demo.platform true)
    (@secure_filename (demo.platform true) (lit "My cool movie.mov"))
  = @secure_filename (demo.platform true) (lit "My cool movie.mov").
Proof.
  apply (@secure_filename_idempotent (demo.platform true)).
  intros s _. reflexivity.
Defined.

(** An empty file is stored, fails to decode, and is not sent on. *)
Lemma undecodable_upload_skips_model_witness :
  @analyze_room (demo.platform true) (demo.upload "room.png" [])
    (demo.world0 true)
  = (Ok (reply (lit "AI analysis failed: cannot identify image file")),
     @mkWorld (demo.platform true)
       {[ lit "/srv/app/uploads/room.png" := [] ]}
       (lit "Gemini error: cannot identify image file" ++ [10]) [] []).
Proof.
  refine (eq_trans
    (proj1
       (@undecodable_upload_skips_model (demo.platform true)
          (demo.upload "room.png" []) (mkFile (lit "room.png") [])
          (demo.world0 true)
          (@stored (demo.platform true) (mkFile (lit "room.png") [])
             (demo.world0 true))
          demo.UnidentifiedImageError
          eq_refl eq_refl eq_refl)) _).
  vm_compute. reflexivity.
Defined.

Lemma analyze_room_model_input_witness :
  model_calls
    (@analyze_room (demo.platform true)
       (demo.upload "room.png" demo.first_bytes) (demo.world0 true)).2
  = [CList [PText analysis_prompt; PImage demo.first_bytes]].
Proof.
  refine (eq_trans
    (@analyze_room_model_input (demo.platform true)
       (demo.upload "room.png" demo.first_bytes)
       (mkFile (lit "room.png") demo.first_bytes) (demo.world0 true)
       (@stored (demo.platform true)
          (mkFile (lit "room.png") demo.first_bytes) (demo.world0 true))
       demo.first_bytes demo.first_bytes
       eq_refl eq_refl eq_refl eq_refl) _).
  reflexivity.
Defined.

Lemma distinct_names_both_stored_witness :
  let w1 :=
    (@analyze_room (demo.platform true)
       (demo.upload "a.png" demo.first_bytes) (demo.world0 true)).2 in
  let w2 :=
    (@analyze_room (demo.platform true)
       (demo.upload "b.png" demo.second_bytes) w1).2 in
  fs w2 !! lit "/srv/app/uploads/a.png" = Some demo.first_bytes
  ∧ fs w2 !! lit "/srv/app/uploads/b.png" = Some demo.second_bytes.
Proof.
  pose proof
    (@distinct_names_both_stored (demo.platform true)
       (demo.upload "a.png" demo.first_bytes)
       (demo.upload "b.png" demo.second_bytes)
       (mkFile (lit "a.png") demo.first_bytes)
       (mkFile (lit "b.png") demo.second_bytes)
       (demo.world0 true)
       (@stored (demo.platform true)
          (mkFile (lit "a.png") demo.first_bytes) (demo.world0 true))
       (@stored (demo.platform true)
          (mkFile (lit "b.png") demo.second_bytes)
          (@analyze_room (demo.platform true)
             (demo.upload "a.png" demo.first_bytes) (demo.world0 true)).2)
       eq_refl eq_refl ltac:(vm_compute; discriminate)
       eq_refl ltac:(vm_compute; reflexivity))
    as (_ & Ha & Hb).
  split; [exact Ha | exact Hb].
Defined.

(** The same upload, sent twice. *)
Lemma analyze_room_disk_effect_witness :
  let request := demo.upload "room.png" demo.first_bytes in
  let w1 := (@analyze_room (demo.platform true) request (demo.world0 true)).2 in
  fs (@analyze_room (demo.platform true) request w1).2 = fs w1.
Proof.
  intros request w1.
  apply (proj2 (@analyze_room_disk_effect (demo.platform true) request
                  (demo.world0 true))
           (mkFile (lit "room.png") demo.first_bytes)
           (@stored (demo.platform true)
              (mkFile (lit "room.png") demo.first_bytes) (demo.world0 true))
           (@stored (demo.platform true)
              (mkFile (lit "room.png") demo.first_bytes) w1)).
  - reflexivity.
  - reflexivity.
  - vm_compute. reflexivity.
Defined.

(** A name of 304 letters is refused by [open]. *)
Lemma long_name_upload_raises_witness :
  @analyze_room (demo.platform true)
    (demo.upload_named demo.long_name demo.first_bytes) (demo.world0 true)
  = (Raise (FileNameTooLong (lit "/srv/app/uploads/" ++ demo.long_name)),
     demo.world0 true).
Proof.
  refine (eq_trans
    (@long_name_upload_raises (demo.platform true)
       (demo.upload_named demo.long_name demo.first_bytes)
       (mkFile demo.long_name demo.first_bytes) (demo.world0 true)
       eq_refl ltac:(vm_compute; reflexivity)) _).
  vm_compute. reflexivity.
Defined.

Lemma only_analyze_room_writes_witness :
  fs (@view_function (demo.platform false) ep_assistant_chat
        (demo.chat demo.hello) (demo.world0 false)).2 = ∅.
Proof.
  by apply (proj2 (@only_analyze_room_writes (demo.platform false)
                     ep_assistant_chat (demo.chat demo.hello)
                     (demo.world0 false))).
Defined.

Lemma responses_are_200_json_witness :
  let r :=
    mkResponse 200 (lit "application/json")
      (JObject [(lit "reply", JString (lit "Assistant unavailable right now."))]) in
  (@view_function (demo.platform false) ep_assistant_chat
     (demo.chat demo.hello) (demo.world0 false)).1 = Ok (RetResponse r)
  ∧ status r = 200
  ∧ mimetype r = lit "application/json"
  ∧ ∃ key value, data r = JObject [(key, value)].
Proof.
  intros r. split; [vm_compute; reflexivity|].
  apply (@responses_are_200_json (demo.platform false) ep_assistant_chat
           (demo.chat demo.hello) (demo.world0 false) r).
  vm_compute. reflexivity.
Defined.
